(** * Form builder and request guard chain of cal.com

    A shallow embedding of
    - [packages/features/form-builder/FormBuilder.tsx]: the schema collection
      editor ([FormBuilder]) and the component dispatcher
      ([ComponentForField]);
    - [packages/trpc/server/trpc.ts]: the middlewares and the procedures
      built from them.

    JavaScript values are a small inductive type; the IEEE numbers of
    JavaScript stay an abstract type [number], since the code only ever
    tests their [typeof], coerces to them and compares identifiers. *)

From Stdlib Require Import Ascii ZArith String DecimalString.
From stdpp Require Import gmap strings list pretty.

Open Scope string_scope.
Open Scope list_scope.

(** ** JavaScript values *)

Set Warnings "-register-all".

Section JsValues.
Context {number : Type}.

Inductive JsValue : Type :=
  | JUndefined
  | JNull
  | JBool (b : bool)
  | JNum (n : number)
  | JStr (s : string)
  | JArr (items : list JsValue)
  | JObj (props : list (string * JsValue)).

(** [typeof v] *)
Definition typeof (v : JsValue) : string :=
  match v with
  | JUndefined => "undefined"
  | JNull => "object"
  | JBool _ => "boolean"
  | JNum _ => "number"
  | JStr _ => "string"
  | JArr _ => "object"
  | JObj _ => "object"
  end.

(** [arr.every(p)] on the items of an array *)
Definition every (p : JsValue -> bool) (items : list JsValue) : bool :=
  forallb p items.

(** [key in v] for a value that is already known to be a non-null object.
    Plain data objects carry their own properties only; an array has its
    indices and [length], never a property called as the keys asked here. *)
Definition hasProperty (key : string) (props : list (string * JsValue)) : bool :=
  existsb (fun kv => String.eqb (fst kv) key) props.

(** [obj[key]] on the properties of a plain object *)
Definition getProperty (key : string) (props : list (string * JsValue))
  : option JsValue :=
  snd <$> List.find (fun kv => String.eqb (fst kv) key) props.

(** [Array.prototype.join(",")] over already converted items *)
Fixpoint joinComma (parts : list string) : string :=
  match parts with
  | [] => ""
  | [p] => p
  | p :: rest => p +:+ "," +:+ joinComma rest
  end.

Section ToString.
(** Number formatting of the engine. *)
Variable numberToString : number -> string.

(** [`${v}`], the string conversion of a template literal. *)
Fixpoint toString (v : JsValue) : string :=
  match v with
  | JUndefined => "undefined"
  | JNull => "null"
  | JBool true => "true"
  | JBool false => "false"
  | JNum n => numberToString n
  | JStr s => s
  | JArr items =>
      joinComma
        (List.map
           (fun item =>
              match item with
              | JUndefined | JNull => ""
              | _ => toString item
              end)
           items)
  | JObj _ => "[object Object]"
  end.
End ToString.
End JsValues.

Arguments JsValue : clear implicits.

(** Numbers to evaluate the code on: the integers and NaN. *)
Inductive SampleNumber : Type :=
| SNaN
| SInt (z : Z).

#[global] Instance SampleNumber_eq_dec : EqDecision SampleNumber.
Proof. solve_decision. Defined.

Definition sampleNumberToString (n : SampleNumber) : string :=
  match n with
  | SNaN => "NaN"
  | SInt z => pretty z
  end.

Definition sampleIsNaN (n : SampleNumber) : bool :=
  match n with SNaN => true | SInt _ => false end.

(** A stand-in for [Number(v)] on the values of the examples: a number is
    itself, [null] is 0, a boolean is 0 or 1, a string of decimal digits is
    its number; strings of another form and the values left are sent to
    NaN here. *)
Definition sampleToNumber (v : JsValue SampleNumber) : SampleNumber :=
  match v with
  | JNum n => n
  | JNull => SInt 0
  | JBool b => SInt (if b then 1 else 0)
  | JStr s =>
      match NilEmpty.uint_of_string s with
      | Some d => SInt (Z.of_uint d)
      | None => SNaN
      end
  | _ => SNaN
  end.

(** What a JavaScript function call ends in. *)
Inductive Thrown : Type :=
| TypeError (message : string)
| Error (message : string).

Inductive Outcome (A : Type) : Type :=
| Returned (a : A)
| Threw (e : Thrown).

Arguments Returned {A} a.
Arguments Threw {A} e.

(** JavaScript truthiness of optional booleans and strings. *)
Definition truthyBool (b : option bool) : bool := default false b.

Definition truthyString (s : option string) : bool :=
  match s with
  | Some s => negb (String.eqb s "")
  | None => false
  end.

(** ** The form builder: [FormBuilder.tsx] *)

Module FormBuilder.

Section Dispatcher.
Context {number : Type}.
(** The React components of the registry are opaque here. *)
Context {Factory : Type}.

Local Abbreviation Js := (JsValue number).

(** One entry of [options]. *)
Record FieldOption : Type := {
  opt_label : string;
  opt_value : string
}.

(** One entry of [sources]. *)
Record Source : Type := {
  src_label : string;
  src_type : string;
  src_id : string;
  fieldRequired : option bool
}.

(** The values of [editable]. *)
Inductive Editable : Type :=
| system
| system_but_optional
| user
| user_readonly.

(** [RhfFormField]: one entry of the schema collection. Properties that the
    code reads with a fallback or a truthiness test are optional. *)
Record Field : Type := {
  name : string;
  label : option string;
  defaultLabel : option string;
  type : string;
  required : option bool;
  hidden : option bool;
  editable : option Editable;
  placeholder : option string;
  defaultPlaceholder : option string;
  options : option (list FieldOption);
  optionsInputs : option (list (string * Js));
  sources : option (list Source)
}.

(** An entry of [Components]: the contract of a field type. *)
Record ComponentConfig : Type := {
  propsType : string;
  factory : Factory
}.

(** [{ ...o, title: o.label }] *)
Record OptionWithTitle : Type := {
  owt_label : string;
  owt_value : string;
  owt_title : string
}.

Definition withTitle (o : FieldOption) : OptionWithTitle :=
  {| owt_label := opt_label o; owt_value := opt_value o; owt_title := opt_label o |}.

(** The props handed to [componentConfig.factory], one constructor per
    branch of [ComponentForField]. The [setValue] callback is passed through
    untouched and is left out. *)
Inductive FactoryProps : Type :=
| TextProps (placeholder_ : option string) (label_ : option string)
    (readOnly_ : bool) (name_ : string) (value_ : Js)
| BooleanProps (label_ : option string) (readOnly_ : bool) (value_ : Js)
    (placeholder_ : option string)
| TextListProps (placeholder_ : option string) (label_ : option string)
    (readOnly_ : bool) (value_ : Js)
| SelectProps (readOnly_ : bool) (value_ : Js) (placeholder_ : option string)
    (options_ : list OptionWithTitle)
| MultiselectProps (placeholder_ : option string) (readOnly_ : bool)
    (value_ : Js) (options_ : list OptionWithTitle)
| ObjectiveWithInputProps (placeholder_ : option string) (readOnly_ : bool)
    (name_ : string) (value_ : Js) (optionsInputs_ : list (string * Js))
    (options_ : list FieldOption).

(** The value a rendered component is bound to. *)
Definition boundValue (p : FactoryProps) : Js :=
  match p with
  | TextProps _ _ _ _ v => v
  | BooleanProps _ _ v _ => v
  | TextListProps _ _ _ v => v
  | SelectProps _ v _ _ => v
  | MultiselectProps _ _ v _ => v
  | ObjectiveWithInputProps _ _ _ v _ _ => v
  end.

(** [<WithLabel>]: the label line (text and required marker) when it is
    shown, around the component. *)
Record Element : Type := {
  labelLine : option (string * string);
  component : Factory;
  props : FactoryProps
}.

Definition WithLabel (field : Field) (readOnly : bool)
    (f : Factory) (p : FactoryProps) : Element :=
  {| labelLine :=
       if negb (String.eqb (type field) "boolean")
          && negb (String.eqb (type field) "multiemail")
          && truthyString (label field)
       then Some (default "" (label field),
                  if negb readOnly && truthyBool (required field) then "*" else "")
       else None;
     component := f;
     props := p |}.

Section ComponentForField.
Variable numberToString : number -> string.
(** [Components], imported from [./Components]. *)
Variable Components : gmap string ComponentConfig.

Definition isString (v : Js) : bool := String.eqb (typeof v) "string".

(** The closure [isValueOfPropsType] of [ComponentForField]; [value] is the
    variable of the enclosing function it closes over.
    [val instanceof Array && val.every(...)] is the match on [JArr]. *)
Definition isValueOfPropsType (value : Js) (val : Js) (propsType : string)
    : Outcome bool :=
  if String.eqb propsType "text" then
    Returned (String.eqb (typeof val) "string")
  else if String.eqb propsType "boolean" then
    Returned (String.eqb (typeof val) "boolean")
  else if String.eqb propsType "textList" then
    Returned (match val with JArr items => every isString items | _ => false end)
  else if String.eqb propsType "select" then
    Returned (String.eqb (typeof val) "string")
  else if String.eqb propsType "multiselect" then
    Returned (match val with JArr items => every isString items | _ => false end)
  else if String.eqb propsType "objectiveWithInput" then
    Returned
      (if String.eqb (typeof value) "object"
          && negb (match value with JNull => true | _ => false end)
       then match value with
            | JObj props => hasProperty "value" props
            | _ => false
            end
       else false)
  else Threw (Error ("Unknown propsType " +:+ propsType)).

(** The message of the error thrown on a value of the wrong shape. *)
Definition invalidValueMessage (value : Js) (propsType : string)
    (fieldName : string) : string :=
  "Value " +:+ toString numberToString value
  +:+ " is not valid for type " +:+ propsType
  +:+ " for field " +:+ fieldName.

Definition isUndefined (v : Js) : bool :=
  match v with JUndefined => true | _ => false end.

(** The branches of [ComponentForField] after the value check. *)
Definition renderForPropsType (componentConfig : ComponentConfig)
    (field : Field) (value : Js) (readOnly : bool) : Outcome (option Element) :=
  let p := propsType componentConfig in
  let f := factory componentConfig in
  if String.eqb p "text" then
    Returned (Some (WithLabel field readOnly f
      (TextProps (placeholder field) (label field) readOnly (name field) value)))
  else if String.eqb p "boolean" then
    Returned (Some (WithLabel field readOnly f
      (BooleanProps (label field) readOnly value (placeholder field))))
  else if String.eqb p "textList" then
    Returned (Some (WithLabel field readOnly f
      (TextListProps (placeholder field) (label field) readOnly value)))
  else if String.eqb p "select" then
    match options field with
    | None => Threw (Error "Field options is not defined")
    | Some opts =>
        Returned (Some (WithLabel field readOnly f
          (SelectProps readOnly value (placeholder field) (List.map withTitle opts))))
    end
  else if String.eqb p "multiselect" then
    match options field with
    | None => Threw (Error "Field options is not defined")
    | Some opts =>
        Returned (Some (WithLabel field readOnly f
          (MultiselectProps (placeholder field) readOnly value (List.map withTitle opts))))
    end
  else if String.eqb p "objectiveWithInput" then
    match options field with
    | None => Threw (Error "Field options is not defined")
    | Some opts =>
        match optionsInputs field with
        | None => Threw (Error "Field optionsInputs is not defined")
        | Some inputs =>
            if (0 <? Z.of_nat (length opts))%Z then
              Returned (Some (WithLabel field readOnly f
                (ObjectiveWithInputProps (placeholder field) readOnly (name field)
                   value inputs opts)))
            else Returned None
        end
    end
  else Threw (Error ("Field " +:+ name field +:+ " does not have a valid propsType")).

(** [ComponentForField({ field, value, setValue, readOnly })] *)
Definition ComponentForField (field : Field) (value : Js) (readOnly : bool)
    : Outcome (option Element) :=
  let fieldType := type field in
  match Components !! fieldType with
  | None =>
      Threw (TypeError "Cannot read properties of undefined (reading 'propsType')")
  | Some componentConfig =>
      if negb (isUndefined value) then
        match isValueOfPropsType value value (propsType componentConfig) with
        | Threw e => Threw e
        | Returned ok =>
            if negb ok then
              Threw (Error (invalidValueMessage value (propsType componentConfig)
                              (name field)))
            else renderForPropsType componentConfig field value readOnly
        end
      else renderForPropsType componentConfig field value readOnly
  end.

(** Whether the check on the value lets the call through: no value is
    supplied, or the supplied one is of the [propsType]. *)
Definition valueAccepted (value : Js) (propsType : string) : bool :=
  isUndefined value
  || match isValueOfPropsType value value propsType with
     | Returned ok => ok
     | Threw _ => false
     end.

End ComponentForField.
End Dispatcher.

Arguments Field : clear implicits.
Arguments FactoryProps : clear implicits.
Arguments Element : clear implicits.
Arguments ComponentConfig : clear implicits.

(** *** The schema collection editor *)

Section Editor.
Context {number : Type}.

Local Abbreviation Fld := (Field number).

(** An entry of the table [FieldTypes]. *)
Record FieldTypeInfo : Type := {
  ft_label : string;
  ft_value : string;
  needsOptions : option bool;
  systemOnly : option bool;
  isTextType : option bool
}.

Definition FieldTypes : list FieldTypeInfo :=
  [ {| ft_label := "Name"; ft_value := "name";
       needsOptions := None; systemOnly := None; isTextType := Some true |};
    {| ft_label := "Email"; ft_value := "email";
       needsOptions := None; systemOnly := None; isTextType := Some true |};
    {| ft_label := "Phone"; ft_value := "phone";
       needsOptions := None; systemOnly := None; isTextType := Some true |};
    {| ft_label := "Short Text"; ft_value := "text";
       needsOptions := None; systemOnly := None; isTextType := Some true |};
    {| ft_label := "Number"; ft_value := "number";
       needsOptions := None; systemOnly := None; isTextType := Some true |};
    {| ft_label := "Long Text"; ft_value := "textarea";
       needsOptions := None; systemOnly := None; isTextType := Some true |};
    {| ft_label := "Select"; ft_value := "select";
       needsOptions := Some true; systemOnly := None; isTextType := Some true |};
    {| ft_label := "MultiSelect"; ft_value := "multiselect";
       needsOptions := Some true; systemOnly := None; isTextType := Some false |};
    {| ft_label := "Multiple Emails"; ft_value := "multiemail";
       needsOptions := None; systemOnly := None; isTextType := Some true |};
    {| ft_label := "Radio Input"; ft_value := "radioInput";
       needsOptions := None; systemOnly := Some true; isTextType := Some false |};
    {| ft_label := "Checkbox Group"; ft_value := "checkbox";
       needsOptions := Some true; systemOnly := None; isTextType := Some false |};
    {| ft_label := "Radio Group"; ft_value := "radio";
       needsOptions := Some true; systemOnly := None; isTextType := Some false |};
    {| ft_label := "Checkbox"; ft_value := "boolean";
       needsOptions := None; systemOnly := None; isTextType := Some false |} ].

(** [FieldTypes.find((f) => f.value === t)] *)
Definition findFieldType (t : option string) : option FieldTypeInfo :=
  match t with
  | None => None
  | Some t => List.find (fun f => String.eqb (ft_value f) t) FieldTypes
  end.

(** **** [useFieldArray]: the operations of react-hook-form on the array

    Indices are JavaScript numbers that the code computes ([index - 1],
    the sentinel [-1]), hence integers. An index outside the array makes
    [data[index] = ...] leave holes or set a property that is no element, and
    reading [data[index]] gives [undefined]: what results is no collection of
    fields, and the operation has no result here. *)

Definition lookupZ {A : Type} (l : list A) (index : Z) : option A :=
  if (index <? 0)%Z then None else l !! Z.to_nat index.

Definition append (fields : list Fld) (value : Fld) : list Fld :=
  fields ++ [value].

Definition remove (index : Z) (fields : list Fld) : list Fld :=
  if (index <? 0)%Z then fields else delete (Z.to_nat index) fields.

Definition update (index : Z) (value : Fld) (fields : list Fld)
    : option (list Fld) :=
  if (index <? 0)%Z then None
  else if (index <? Z.of_nat (length fields))%Z
       then Some (<[Z.to_nat index := value]> fields)
  else if (index =? Z.of_nat (length fields))%Z
       then Some (fields ++ [value])
  else None.

(** [data[indexA] = [data[indexB], (data[indexB] = data[indexA])][0]] *)
Definition swap (indexA indexB : Z) (fields : list Fld) : option (list Fld) :=
  match lookupZ fields indexA, lookupZ fields indexB with
  | Some a, Some b =>
      Some (<[Z.to_nat indexA := b]> (<[Z.to_nat indexB := a]> fields))
  | _, _ => None
  end.

(** **** State of the component *)

Record FieldDialog : Type := {
  isOpen : bool;
  fieldIndex : Z
}.

(** [fields] of the field array, the [useState] cell [fieldDialog], and the
    values of the dialog's own form [fieldForm] ([None] after [reset({})],
    where every value is undefined). *)
Record State : Type := {
  fields : list Fld;
  fieldDialog : FieldDialog;
  fieldForm : option Fld
}.

Definition addField (st : State) : State :=
  {| fields := fields st;
     fieldDialog := {| isOpen := true; fieldIndex := -1 |};
     fieldForm := None |}.

Definition editField (index : Z) (data : Fld) (st : State) : State :=
  {| fields := fields st;
     fieldDialog := {| isOpen := true; fieldIndex := index |};
     fieldForm := Some data |}.

Definition removeField (index : Z) (st : State) : State :=
  {| fields := remove index (fields st);
     fieldDialog := fieldDialog st;
     fieldForm := fieldForm st |}.

Definition withFields (st : State) (fs : list Fld) : State :=
  {| fields := fs; fieldDialog := fieldDialog st; fieldForm := fieldForm st |}.

(** [{ ...field, hidden: h }] *)
Definition setHidden (field : Fld) (h : bool) : Fld :=
  {| name := name field; label := label field; defaultLabel := defaultLabel field;
     type := type field; required := required field; hidden := Some h;
     editable := editable field; placeholder := placeholder field;
     defaultPlaceholder := defaultPlaceholder field; options := options field;
     optionsInputs := optionsInputs field; sources := sources field |}.

(** [onCheckedChange] of the row's [Switch]. *)
Definition onCheckedChange (index : Z) (field : Fld) (checked : bool)
    (st : State) : option State :=
  withFields st <$> update index (setHidden field (negb checked)) (fields st).

(** [checked={!field.hidden}] *)
Definition switchChecked (field : Fld) : bool := negb (truthyBool (hidden field)).

(** Flipping the switch of a row: the switch reports the negation of the
    state it shows. *)
Definition toggleHidden (index : Z) (field : Fld) (st : State) : option State :=
  onCheckedChange index field (negb (switchChecked field)) st.

(** The [handleSubmit] callback of the dialog's form. *)
Definition handleSubmit (data : Fld) (st : State) : option State :=
  let closed := {| isOpen := false; fieldIndex := -1 |} in
  if negb (fieldIndex (fieldDialog st) =? -1)%Z then
    fs ← update (fieldIndex (fieldDialog st)) data (fields st);
    Some {| fields := fs; fieldDialog := closed; fieldForm := fieldForm st |}
  else
    let field :=
      {| name := name data; label := label data; defaultLabel := defaultLabel data;
         type := type data; required := required data; hidden := hidden data;
         editable := editable data; placeholder := placeholder data;
         defaultPlaceholder := defaultPlaceholder data; options := options data;
         optionsInputs := optionsInputs data;
         sources := Some [ {| src_label := "User"; src_type := "user";
                              src_id := "user";
                              fieldRequired := required data |} ] |} in
    let field :=
      {| name := name field; label := label field; defaultLabel := defaultLabel field;
         type := type field; required := required field; hidden := hidden field;
         editable := Some (default user (editable field));
         placeholder := placeholder field;
         defaultPlaceholder := defaultPlaceholder field; options := options field;
         optionsInputs := optionsInputs field; sources := sources field |} in
    Some {| fields := append (fields st) field;
            fieldDialog := closed;
            fieldForm := fieldForm st |}.

(** [onOpenChange] of the dialog. *)
Definition onOpenChange (open : bool) (st : State) : State :=
  {| fields := fields st;
     fieldDialog := {| isOpen := open; fieldIndex := -1 |};
     fieldForm := fieldForm st |}.

(** **** What is rendered *)

(** The controls of one row of the list. *)
Inductive Control : Type :=
| ArrowUp
| ArrowDown
| HiddenSwitch (checked : bool)
| EditButton
| DeleteButton.

Definition isEditable (e : Editable) (field : Fld) : bool :=
  match editable field, e with
  | Some system, system => true
  | Some system_but_optional, system_but_optional => true
  | Some user, user => true
  | Some user_readonly, user_readonly => true
  | _, _ => false
  end.

Definition rowControls (field : Fld) : list Control :=
  [ArrowUp; ArrowDown]
  ++ (if negb (isEditable user_readonly field) then
        (if negb (isEditable system field)
         then [HiddenSwitch (switchChecked field)] else [])
        ++ [EditButton]
        ++ (if negb (isEditable system field)
               && negb (isEditable system_but_optional field)
            then [DeleteButton] else [])
      else []).

(** The handler behind each control of the row at [index]. *)
Definition click (index : Z) (field : Fld) (c : Control) (st : State)
    : option State :=
  match c with
  | ArrowUp => withFields st <$> swap index (index - 1) (fields st)
  | ArrowDown => withFields st <$> swap index (index + 1) (fields st)
  | HiddenSwitch checked => onCheckedChange index field (negb checked) st
  | EditButton => Some (editField index field st)
  | DeleteButton => Some (removeField index st)
  end.

Record Row : Type := {
  isRequired : bool;
  hiddenBadge : bool;
  sourceBadges : list string;
  typeLabel : string;
  controls : list Control
}.

(** The body of [fields.map((field, index) => ...)]. *)
Definition renderRow (field : Fld) : Outcome Row :=
  match findFieldType (Some (type field)) with
  | None => Threw (Error ("Invalid field type - " +:+ type field))
  | Some fieldType =>
      Returned
        {| isRequired := truthyBool (required field) && negb (truthyBool (hidden field));
           hiddenBadge := truthyBool (hidden field);
           sourceBadges :=
             src_label <$>
               List.filter (fun s => negb (String.eqb (src_type s) "user"))
                 (default [] (sources field));
           typeLabel := ft_label fieldType;
           controls := rowControls field |}
  end.

(** The inputs of the dialog, as far as their state depends on the form. *)
Record DialogView : Type := {
  dialogOpen : bool;
  typeSelectDisabled : bool;
  typeSelectOptions : list FieldTypeInfo;
  nameInputDisabled : bool;
  placeholderInputShown : bool;
  optionsFieldShown : bool;
  requiredToggleDisabled : bool;
  isFieldEditMode : bool
}.

(** [fieldForm.getValues("editable") === e] *)
Definition formEditableIs (e : Editable) (st : State) : bool :=
  match fieldForm st with
  | Some data => isEditable e data
  | None => false
  end.

Definition renderDialog (st : State) : DialogView :=
  let fieldType := findFieldType (type <$> fieldForm st) in
  {| dialogOpen := isOpen (fieldDialog st);
     typeSelectDisabled :=
       formEditableIs system st || formEditableIs system_but_optional st;
     typeSelectOptions :=
       List.filter (fun f => negb (truthyBool (systemOnly f))) FieldTypes;
     nameInputDisabled :=
       formEditableIs system st || formEditableIs system_but_optional st;
     placeholderInputShown := truthyBool (fieldType ≫= isTextType);
     optionsFieldShown := truthyBool (fieldType ≫= needsOptions);
     requiredToggleDisabled := formEditableIs system st;
     isFieldEditMode := negb (fieldIndex (fieldDialog st) =? -1)%Z |}.

End Editor.

Arguments State : clear implicits.

(** *** The contract of the dispatcher as the specification words it *)

Section Contract.
Context {number : Type}.

Local Abbreviation Js := (JsValue number).

Definition isStringValue (v : Js) : bool :=
  match v with JStr _ => true | _ => false end.

Definition isBooleanValue (v : Js) : bool :=
  match v with JBool _ => true | _ => false end.

Definition isListOfStrings (v : Js) : bool :=
  match v with JArr items => forallb isStringValue items | _ => false end.

Definition isObjectValue (v : Js) : bool :=
  match v with JObj _ => true | _ => false end.

(** The value shape of each [propsType]: a string for text and select, a
    boolean for boolean, a list of strings for textList and multiselect, an
    object for objectiveWithInput; [None] for a [propsType] that is not one
    of these. *)
Definition expectedShape (propsType : string) (v : Js) : option bool :=
  if String.eqb propsType "text" || String.eqb propsType "select"
  then Some (isStringValue v)
  else if String.eqb propsType "boolean"
  then Some (isBooleanValue v)
  else if String.eqb propsType "textList" || String.eqb propsType "multiselect"
  then Some (isListOfStrings v)
  else if String.eqb propsType "objectiveWithInput"
  then Some (isObjectValue v)
  else None.

(** The documented shape of an objectiveWithInput value:
    [{value: string, optionValue: string}]. *)
Definition hasStringMember (key : string) (props : list (string * Js)) : bool :=
  match getProperty key props with
  | Some (JStr _) => true
  | _ => false
  end.

Definition isValueWithOptionValue (v : Js) : bool :=
  match v with
  | JObj props => hasStringMember "value" props && hasStringMember "optionValue" props
  | _ => false
  end.

Definition recognizedPropsType (propsType : string) : bool :=
  existsb (String.eqb propsType)
    ["text"; "boolean"; "textList"; "select"; "multiselect"; "objectiveWithInput"].

End Contract.

(** Modelled from the spec: the registry [Components] of [./Components] is
    not among the sources. It maps a field type to its component contract;
    the specification names the [propsType] of the field types below (each is
    its own [propsType]). A component is stood for by its name. *)
Definition Components_spec : gmap string (ComponentConfig string) :=
  list_to_map
    [ ("text", {| propsType := "text"; factory := "text" |});
      ("boolean", {| propsType := "boolean"; factory := "boolean" |});
      ("textList", {| propsType := "textList"; factory := "textList" |});
      ("select", {| propsType := "select"; factory := "select" |});
      ("multiselect", {| propsType := "multiselect"; factory := "multiselect" |});
      ("objectiveWithInput",
       {| propsType := "objectiveWithInput"; factory := "objectiveWithInput" |}) ].

(** Fields to evaluate the code on. *)
Definition sampleField (fieldType : string)
    (fieldOptions : option (list FieldOption))
    (fieldOptionsInputs : option (list (string * JsValue SampleNumber)))
    : Field SampleNumber :=
  {| name := "question"; label := Some "Question"; defaultLabel := None;
     type := fieldType; required := Some true; hidden := None;
     editable := Some user; placeholder := None; defaultPlaceholder := None;
     options := fieldOptions; optionsInputs := fieldOptionsInputs;
     sources := None |}.

Definition sampleEntry (fieldName fieldType : string)
    (fieldEditable : option Editable) : Field SampleNumber :=
  {| name := fieldName; label := Some fieldName; defaultLabel := None;
     type := fieldType; required := Some true; hidden := None;
     editable := fieldEditable; placeholder := None; defaultPlaceholder := None;
     options := None; optionsInputs := None; sources := None |}.

(** A collection of three entries with the dialog closed, and the same
    with the dialog open on the entry at index 1. *)
Definition sampleState : State SampleNumber :=
  {| fields := [ sampleEntry "name" "name" (Some system);
                 sampleEntry "notes" "textarea" (Some system_but_optional);
                 sampleEntry "company" "text" (Some user) ];
     fieldDialog := {| isOpen := false; fieldIndex := -1 |};
     fieldForm := None |}.

Definition sampleEditState : State SampleNumber :=
  editField 1 (sampleEntry "notes" "textarea" (Some system_but_optional))
    sampleState.

Definition twoOptions : list FieldOption :=
  [ {| opt_label := "Option 1"; opt_value := "1" |};
    {| opt_label := "Option 2"; opt_value := "2" |} ].

(** *** The options editor [OptionsField] *)

Section OptionsField.
(** [String.prototype.toLowerCase] and [String.prototype.trim] of the
    engine. *)
Variable toLowerCase : string -> string.
Variable trim : string -> string.

Definition defaultOptions : list FieldOption :=
  [ {| opt_label := "Option 1"; opt_value := "1" |};
    {| opt_label := "Option 2"; opt_value := "2" |} ].

(** [value = value || [...]]: an array is truthy, the default stands in for
    an undefined value only. *)
Definition optionsOrDefault (value : option (list FieldOption))
    : list FieldOption :=
  default defaultOptions value.

(** [arr.splice(start, 1, ...items)] for a [start] that is not negative:
    [start] is clamped to the length, one element is dropped there when there
    is one, and the items take its place. *)
Definition splice1 {A : Type} (start : nat) (items : list A) (arr : list A)
    : list A :=
  take start arr ++ items ++ drop (S start) arr.

(** The array given to [onChange] by the [onChange] of the input of row
    [index]. *)
Definition onLabelChange (index : nat) (text : string)
    (value : list FieldOption) : list FieldOption :=
  splice1 index
    [ {| opt_label := text; opt_value := trim (toLowerCase text) |} ] value.

(** The array given to [onChange] by the remove button of row [index]. *)
Definition onRemoveClick (index : nat) (value : list FieldOption)
    : list FieldOption :=
  splice1 index [] value.

(** The array given to [onChange] by "Add an Option". *)
Definition onAddClick (value : list FieldOption) : list FieldOption :=
  value ++ [ {| opt_label := ""; opt_value := "" |} ].

(** What the user can do on the rendered editor. *)
Inductive OptionsEvent : Type :=
| ChangeLabel (index : nat) (text : string)
| ClickRemove (index : nat)
| ClickAdd.

(** One event on the editor rendered for the form value [value]: the new
    form value, when the rendering has the control of the event (an input
    per option; the remove button under [value.length > 2 && !readOnly]; the
    add button under [!readOnly]). *)
Definition optionsStep (readOnly : bool) (value : option (list FieldOption))
    (e : OptionsEvent) : option (option (list FieldOption)) :=
  let v := optionsOrDefault value in
  match e with
  | ChangeLabel index text =>
      if (index <? length v)%nat then Some (Some (onLabelChange index text v))
      else None
  | ClickRemove index =>
      if (index <? length v)%nat && (2 <? length v)%nat && negb readOnly
      then Some (Some (onRemoveClick index v))
      else None
  | ClickAdd =>
      if negb readOnly then Some (Some (onAddClick v)) else None
  end.

Fixpoint optionsRun (readOnly : bool) (events : list OptionsEvent)
    (value : option (list FieldOption)) : option (option (list FieldOption)) :=
  match events with
  | [] => Some value
  | e :: rest =>
      match optionsStep readOnly value e with
      | Some value' => optionsRun readOnly rest value'
      | None => None
      end
  end.

End OptionsField.

(** *** The renderer of one field, [FormBuilderField]

    Strings are UTF-8 text: the braces and the line terminators LF and CR
    are single bytes, the line terminators U+2028 and U+2029 are the bytes
    226 128 168 and 226 128 169. *)

Section FormBuilderField.
Context {number Factory : Type}.

(** Whether [s] starts with a line terminator, which [.] does not match. *)
Definition startsWithLineTerminator (s : string) : bool :=
  match s with
  | String c rest =>
      Ascii.eqb c "010"%char || Ascii.eqb c "013"%char
      || (Ascii.eqb c "226"%char
          && match rest with
             | String c2 (String c3 _) =>
                 Ascii.eqb c2 "128"%char && (Ascii.eqb c3 "168"%char || Ascii.eqb c3 "169"%char)
             | _ => false
             end)
  | EmptyString => false
  end.

(** [.*] at the start of [s]: what it matches, and what is left. *)
Fixpoint splitLine (s : string) : string * string :=
  match s with
  | EmptyString => ("", "")
  | String c rest =>
      if startsWithLineTerminator s then ("", s)
      else let (matched, remainder) := splitLine rest in (String c matched, remainder)
  end.

(** The longest run of characters other than the closing brace at the start
    of [s], and what is left. *)
Fixpoint spanNotClosingBrace (s : string) : string * string :=
  match s with
  | EmptyString => ("", "")
  | String c rest =>
      if Ascii.eqb c "}"%char then ("", s)
      else let (run, remainder) := spanNotClosingBrace rest in (String c run, remainder)
  end.

(** A match of the two patterns of the code, an opening brace, a group of
    one or more characters other than the closing brace, the closing brace
    and then [.*], that starts at the start of [s]: the group in the braces,
    the match of [.*], and what follows the match. *)
Definition matchBracedAt (s : string) : option (string * string * string) :=
  match s with
  | String c rest =>
      if Ascii.eqb c "{"%char then
        match spanNotClosingBrace rest with
        | (String g gs, String _ afterBrace) =>
            let (dots, remainder) := splitLine afterBrace in
            Some (String g gs, dots, remainder)
        | _ => None
        end
      else None
  | EmptyString => None
  end.

(** The leftmost match in [s]: what precedes it, and the match. *)
Fixpoint firstBracedMatch (s : string)
    : option (string * (string * string * string)) :=
  match matchBracedAt s with
  | Some m => Some ("", m)
  | None =>
      match s with
      | EmptyString => None
      | String c rest =>
          match firstBracedMatch rest with
          | Some (before, m) => Some (String c before, m)
          | None => None
          end
      end
  end.

(** [message.replace] with the first pattern, whose group is the content
    of the braces, and "$1": the match is replaced by that content. *)
Definition replaceWithName (message : string) : string :=
  match firstBracedMatch message with
  | Some (before, (group, _, remainder)) => before +:+ group +:+ remainder
  | None => message
  end.

(** [message.replace] with the second pattern, whose group is the match of
    [.*], and "$1": the braces and their content are dropped. *)
Definition replaceWithText (message : string) : string :=
  match firstBracedMatch message with
  | Some (before, (_, dots, remainder)) => before +:+ dots +:+ remainder
  | None => message
  end.

(** What the [render] of [<ErrorMessage>] gives for the message of the
    error: the key handed to [t] for display ([None] for null), and the lines
    written with [console.error]. *)
Definition renderErrorMessage (field : Field number) (message : option string)
    : option string * list string :=
  match message with
  | Some m =>
      if negb (String.eqb (replaceWithName m) (name field)) then (None, [])
      else
        let m' := replaceWithText m in
        (Some m',
         if truthyBool (hidden field)
         then ["Error message for hidden field:" +:+ name field +:+ " => " +:+ m']
         else [])
  | None => (None, [])
  end.

(** What [FormBuilderField] renders: the wrapper with its field name and
    whether it has the class "hidden", the name the controller binds, the
    outcome of [ComponentForField] on the bound value, and the error line.
    [errors] is the message of the error of the form at "responses": [None]
    without such an error (nothing is rendered for it), [Some None] for an
    error that has no message. *)
Record FieldView : Type := {
  dataFormBuilderFieldName : string;
  hiddenClass : bool;
  controllerName : string;
  fieldComponent : Outcome (option (Element number Factory));
  errorLine : option string;
  consoleErrors : list string
}.

Definition FormBuilderField (numberToString : number -> string)
    (Components : gmap string (ComponentConfig Factory))
    (field : Field number) (readOnly : bool) (value : JsValue number)
    (errors : option (option string)) : FieldView :=
  let rendered :=
    match errors with
    | Some message => renderErrorMessage field message
    | None => (None, [])
    end in
  {| dataFormBuilderFieldName := name field;
     hiddenClass := truthyBool (hidden field);
     controllerName := "responses." +:+ name field;
     fieldComponent := ComponentForField numberToString Components field value readOnly;
     errorLine := fst rendered;
     consoleErrors := snd rendered |}.

(** Strings all of whose characters satisfy [p]. *)
Fixpoint allChars (p : Ascii.ascii -> bool) (s : string) : bool :=
  match s with
  | EmptyString => true
  | String c rest => p c && allChars p rest
  end.

Definition notClosingBrace (c : Ascii.ascii) : bool :=
  negb (Ascii.eqb c "}"%char).

Definition notOpeningBrace (c : Ascii.ascii) : bool :=
  negb (Ascii.eqb c "{"%char).

(** Strings without a line terminator. *)
Fixpoint singleLine (s : string) : bool :=
  match s with
  | EmptyString => true
  | String c rest => negb (startsWithLineTerminator s) && singleLine rest
  end.

End FormBuilderField.

(** Stand-ins for [toLowerCase] and [trim] on text of letters, digits and
    spaces: the letters A to Z are lower-cased, the spaces at both ends are
    dropped. *)
Definition sampleLowerChar (c : Ascii.ascii) : Ascii.ascii :=
  let n := Ascii.nat_of_ascii c in
  if (65 <=? n)%nat && (n <=? 90)%nat then Ascii.ascii_of_nat (n + 32) else c.

Fixpoint sampleToLowerCase (s : string) : string :=
  match s with
  | EmptyString => EmptyString
  | String c rest => String (sampleLowerChar c) (sampleToLowerCase rest)
  end.

Fixpoint dropSpaces (s : string) : string :=
  match s with
  | String c rest => if Ascii.eqb c " "%char then dropSpaces rest else s
  | EmptyString => EmptyString
  end.

Definition sampleTrim (s : string) : string :=
  String.rev (dropSpaces (String.rev (dropSpaces s))).

(** A message with a text on two lines. *)
Definition twoLineText : string :=
  "first" +:+ String "010"%char "second".

End FormBuilder.

(** ** The request guard chain: [trpc.ts] *)

Module Trpc.

Section Guards.
Context {number : Type} `{EqDecision number}.
(** The session object and the data a handler returns are opaque. *)
Context {Session Data : Type}.

Local Abbreviation Js := (JsValue number).

(** [Number(v)], the coercion of [z.coerce.number()], and [Number.isNaN]. *)
Variable toNumber : Js -> number.
Variable isNaN : number -> bool.

Inductive TRPC_ERROR_CODE : Type :=
| UNAUTHORIZED
| BAD_REQUEST
| TOO_MANY_REQUESTS
| INTERNAL_SERVER_ERROR.

Record TRPCError : Type := { code : TRPC_ERROR_CODE }.

Record User : Type := {
  id : number;
  role : string
}.

(** The request context made by [createContext]: the two properties the
    middlewares read, and the other properties of the object. *)
Record Context : Type := {
  user : option User;
  session : option Session;
  others : list (string * Js)
}.

(** The object given as [ctx] to [next]: a property is [None] when the
    object does not have it. *)
Record ContextPatch : Type := {
  patch_session : option (option Session);
  patch_user : option (option User)
}.

(** [{ ...ctx, ...patch }] *)
Definition mergeContext (ctx : Context) (patch : ContextPatch) : Context :=
  {| user := default (user ctx) (patch_user patch);
     session := default (session ctx) (patch_session patch);
     others := others ctx |}.

(** A row of the [membership] table, by the two columns of the query. *)
Record Membership : Type := {
  userId : number;
  teamId : number
}.

(** What a request does that can be observed from outside. *)
Inductive Event : Type :=
| PerformanceMark (markName : string)
| PerformanceMeasure (measureName startMark endMark : string)
| MembershipFindFirst (whereUserId : number) (whereTeamId : option number)
| ResolverCalled (ctx : Context) (rawInput : Js).

(** Computations that append to the trace of events and return or throw a
    [TRPCError]. *)
Definition M (A : Type) : Type := list Event -> (TRPCError + A) * list Event.

Definition ret {A : Type} (a : A) : M A := fun tr => (inr a, tr).

Definition bind {A B : Type} (m : M A) (k : A -> M B) : M B :=
  fun tr =>
    match m tr with
    | (inr a, tr') => k a tr'
    | (inl e, tr') => (inl e, tr')
    end.

Definition throw {A : Type} (c : TRPC_ERROR_CODE) : M A :=
  fun tr => (inl {| code := c |}, tr).

Definition emit (e : Event) : M unit := fun tr => (inr tt, tr ++ [e]).

Definition tryCatch {A : Type} (m : M A) (handler : TRPCError -> M A) : M A :=
  fun tr =>
    match m tr with
    | (inr a, tr') => (inr a, tr')
    | (inl e, tr') => handler e tr'
    end.

Local Notation "x <- m ;; k" := (bind m (fun x => k))
  (at level 100, m at next level, right associativity).
Local Notation "m ;;; k" := (bind m (fun _ => k))
  (at level 100, right associativity).

(** The result a middleware gets from [next()] and returns. *)
Inductive MiddlewareResult : Type :=
| ResultOk (data : Data)
| ResultError (error : TRPCError).

Definition ok (r : MiddlewareResult) : bool :=
  match r with ResultOk _ => true | ResultError _ => false end.

Record MiddlewareOpts : Type := {
  ctx : Context;
  rawInput : Js;
  path : string;
  type : string;
  next : option ContextPatch -> M MiddlewareResult
}.

Definition Middleware : Type := MiddlewareOpts -> M MiddlewareResult.

(** *** The middlewares *)

(** The name of the measurement of [perfMiddleware]. *)
Definition measureName (resultOk : bool) (callType callPath : string) : string :=
  "[" +:+ (if resultOk then "OK" else "ERROR") +:+ "][$1] "
  +:+ callType +:+ " '" +:+ callPath +:+ "'".

Definition perfMiddleware : Middleware := fun opts =>
  emit (PerformanceMark "Start") ;;;
  result <- next opts None ;;
  emit (PerformanceMark "End") ;;;
  emit (PerformanceMeasure (measureName (ok result) (type opts) (path opts))
          "Start" "End") ;;;
  ret result.

Definition isAuthedMiddleware : Middleware := fun opts =>
  match user (ctx opts), session (ctx opts) with
  | Some u, Some s =>
      next opts (Some {| patch_session := Some (Some s);
                         patch_user := Some (Some u) |})
  | _, _ => throw UNAUTHORIZED
  end.

(** The function piped after [isAuthedMiddleware] in [isAdminMiddleware].
    Reading [ctx.user.role] without a user is a [TypeError], which tRPC
    reports as [INTERNAL_SERVER_ERROR]. *)
Definition isAdminStage : Middleware := fun opts =>
  match user (ctx opts) with
  | None => throw INTERNAL_SERVER_ERROR
  | Some u =>
      if negb (String.eqb (role u) "ADMIN") then throw UNAUTHORIZED
      else next opts (Some {| patch_session := None; patch_user := Some (Some u) |})
  end.

(** [unstable_pipe] yields the middlewares in order. *)
Definition isAdminMiddleware : list Middleware :=
  [isAuthedMiddleware; isAdminStage].

(** [UserBelongsToTeamInput.safeParse(rawInput)]: [None] when
    [success] is false, otherwise [data.teamId]. The input must be a plain
    object; an absent or undefined [teamId] stays undefined; any other is
    coerced with [Number] and refused when that gives [NaN]. *)
Definition UserBelongsToTeamInput_safeParse (rawInput : Js)
    : option (option number) :=
  match rawInput with
  | JObj props =>
      match getProperty "teamId" props with
      | None | Some JUndefined => Some None
      | Some v =>
          let n := toNumber v in
          if isNaN n then None else Some (Some n)
      end
  | _ => None
  end.

Section Database.
(** The rows of the [membership] table while the request runs. *)
Variable memberships : list Membership.

(** [prisma.membership.findFirst({ where: { userId, teamId } })]; a
    condition whose value is undefined does not filter. *)
Definition membership_findFirst (whereUserId : number)
    (whereTeamId : option number) : M (option Membership) :=
  emit (MembershipFindFirst whereUserId whereTeamId) ;;;
  ret (List.find
         (fun m =>
            bool_decide (userId m = whereUserId)
            && match whereTeamId with
               | Some t => bool_decide (teamId m = t)
               | None => true
               end)
         memberships).

Definition userBelongsToTeamMiddleware : Middleware := fun opts =>
  let parse := UserBelongsToTeamInput_safeParse (rawInput opts) in
  match user (ctx opts), session (ctx opts) with
  | Some u, Some _ =>
      match parse with
      | None => throw BAD_REQUEST
      | Some data_teamId =>
          team <- membership_findFirst (id u) data_teamId ;;
          match team with
          | None => throw UNAUTHORIZED
          | Some _ => next opts None
          end
      end
  | _, _ => throw UNAUTHORIZED
  end.

(** *** Procedures

    A procedure is the list of its middlewares; [use] appends. To call it,
    tRPC runs the middlewares in order with the resolver as the last one,
    and turns whatever a stage throws into a result that is not ok. *)

Definition t_procedure : list Middleware := [].

Definition use (procedure : list Middleware) (m : list Middleware)
    : list Middleware :=
  procedure ++ m.

Definition publicProcedure : list Middleware :=
  use t_procedure [perfMiddleware].

Definition authedProcedure : list Middleware :=
  use (use t_procedure [perfMiddleware]) [isAuthedMiddleware].

Definition authedAdminProcedure : list Middleware :=
  use (use t_procedure [perfMiddleware]) isAdminMiddleware.

Definition userBelongsToTeamProcedure : list Middleware :=
  use (use (use t_procedure [perfMiddleware]) [isAuthedMiddleware])
      [userBelongsToTeamMiddleware].

Section Call.
(** The handler body given to [.query] or [.mutation]. *)
Variable handler : Context -> Js -> TRPCError + Data.
Variables (input : Js) (callPath callType : string).

Definition resolveMiddleware (c : Context) : M MiddlewareResult :=
  emit (ResolverCalled c input) ;;;
  match handler c input with
  | inr data => ret (ResultOk data)
  | inl e => fun tr => (inl e, tr)
  end.

Fixpoint callRecursive (middlewares : list Middleware) (c : Context)
    : M MiddlewareResult :=
  tryCatch
    match middlewares with
    | [] => resolveMiddleware c
    | middleware :: rest =>
        middleware
          {| ctx := c; rawInput := input; path := callPath; type := callType;
             next := fun nextOpts =>
               callRecursive rest
                 (match nextOpts with
                  | Some patch => mergeContext c patch
                  | None => c
                  end) |}
    end
    (fun e => ret (ResultError e)).

(** Calling a procedure with a fresh trace: what the caller gets, and the
    events of the request. *)
Definition callProcedure (procedure : list Middleware) (c : Context)
    : (TRPCError + Data) * list Event :=
  match callRecursive procedure c [] with
  | (inr (ResultOk data), tr) => (inr data, tr)
  | (inr (ResultError e), tr) => (inl e, tr)
  | (inl e, tr) => (inl e, tr)
  end.

(** The events of a request that a stage turned away before any query and
    before the resolver. *)
Definition rejectedTrace : list Event :=
  [ PerformanceMark "Start"; PerformanceMark "End";
    PerformanceMeasure (measureName false callType callPath) "Start" "End" ].

Definition isOk (r : TRPCError + Data) : bool :=
  match r with inr _ => true | inl _ => false end.

End Call.
End Database.
(** *** The rate limit stage *)

Section RateLimit.
(** [id.toString()] *)
Variable numberToString : number -> string.
(** [rateLimit({ intervalInMs }).check(limit, key).isRateLimited]: the
    answer of the limiter of [@calcom/lib/rateLimit] to this request. *)
Variable rateLimit_check : number -> number -> string -> bool.

Record IRateLimitOptions : Type := {
  intervalInMs : number;
  limit : number
}.

Definition isRateLimitedByUserIdMiddleware (o : IRateLimitOptions)
    : Middleware := fun opts =>
  match user (ctx opts) with
  | None => throw UNAUTHORIZED
  | Some u =>
      if rateLimit_check (intervalInMs o) (limit o) (numberToString (id u))
      then throw TOO_MANY_REQUESTS
      else next opts (Some {| patch_session := Some (session (ctx opts));
                              patch_user := Some (Some u) |})
  end.

Definition authedRateLimitedProcedure (o : IRateLimitOptions)
    : list Middleware :=
  use (use (use t_procedure [perfMiddleware]) [isAuthedMiddleware])
      [isRateLimitedByUserIdMiddleware o].

End RateLimit.

End Guards.

Arguments Context : clear implicits.
Arguments Event : clear implicits.
Arguments User : clear implicits.
Arguments Membership : clear implicits.

(** A user, contexts, a membership table and a handler to evaluate the
    code on. *)
Definition sampleUser (userRole : string) : User SampleNumber :=
  {| id := SInt 7; role := userRole |}.

Definition sampleContext (userRole : string) : Context SampleNumber string :=
  {| user := Some (sampleUser userRole); session := Some "session";
     others := [("locale", JStr "en")] |}.

Definition anonymousContext : Context SampleNumber string :=
  {| user := None; session := None; others := [("locale", JStr "en")] |}.

Definition sampleMemberships : list (Membership SampleNumber) :=
  [ {| userId := SInt 8; teamId := SInt 5 |};
    {| userId := SInt 7; teamId := SInt 5 |} ].

Definition membershipsOfOthers : list (Membership SampleNumber) :=
  [ {| userId := SInt 8; teamId := SInt 5 |};
    {| userId := SInt 7; teamId := SInt 6 |} ].

(** A limiter that gives the same answer to every request. *)
Definition sampleLimiter (limited : bool)
    (interval count : SampleNumber) (key : string) : bool :=
  limited.

Definition sampleRateLimit : IRateLimitOptions (number := SampleNumber) :=
  {| intervalInMs := SInt 60000; limit := SInt 10 |}.

Definition sampleHandler (c : Context SampleNumber string)
    (input : JsValue SampleNumber) : TRPCError + string :=
  inr "handled".

End Trpc.

(** * Properties of the component dispatcher *)

Import FormBuilder.

Section DispatcherFacts.
Context {number Factory : Type}.
Variable numberToString : number -> string.
Variable Components : gmap string (ComponentConfig Factory).

Local Abbreviation Js := (JsValue number).
Local Abbreviation dispatch := (ComponentForField numberToString Components).

Lemma isString_isStringValue (v : Js) : isString v = isStringValue v.
Proof. by destruct v. Qed.

Lemma every_isString (items : list Js) :
  every isString items = forallb isStringValue items.
Proof.
  unfold every. induction items as [|v items IH]; simpl; [done|].
  by rewrite isString_isStringValue, IH.
Qed.

(** The check of the code accepts no value outside the shape of the
    contract. *)
Lemma isValueOfPropsType_sound (value : Js) (p : string) :
  isValueOfPropsType value value p = Returned true ->
  expectedShape p value = Some true.
Proof.
  unfold isValueOfPropsType, expectedShape.
  destruct (String.eqb p "text") eqn:Et; simpl.
  { intros [= Hv]. destruct value; simpl in *; congruence. }
  destruct (String.eqb p "boolean") eqn:Eb; simpl.
  { apply String.eqb_eq in Eb as ->. simpl. intros [= Hv].
    destruct value; simpl in *; congruence. }
  destruct (String.eqb p "textList") eqn:El; simpl.
  { apply String.eqb_eq in El as ->. simpl. intros [= Hv].
    destruct value; simpl in *; try congruence.
    by rewrite every_isString in Hv; rewrite Hv. }
  destruct (String.eqb p "select") eqn:Es; simpl.
  { intros [= Hv]. destruct value; simpl in *; congruence. }
  destruct (String.eqb p "multiselect") eqn:Em; simpl.
  { intros [= Hv].
    destruct value; simpl in *; try congruence.
    by rewrite every_isString in Hv; rewrite Hv. }
  destruct (String.eqb p "objectiveWithInput") eqn:Eo; simpl; [|done].
  intros [= Hv]. destruct value; simpl in *; congruence.
Qed.

Lemma isValueOfPropsType_known (value val : Js) (p : string) :
  recognizedPropsType p = true ->
  exists b, isValueOfPropsType value val p = Returned b.
Proof.
  unfold recognizedPropsType, isValueOfPropsType. simpl.
  repeat (destruct (String.eqb p _); [eauto|]). done.
Qed.

Lemma isValueOfPropsType_unknown (value val : Js) (p : string) :
  recognizedPropsType p = false ->
  isValueOfPropsType value val p = Threw (Error ("Unknown propsType " +:+ p)).
Proof.
  unfold recognizedPropsType, isValueOfPropsType. simpl.
  repeat (destruct (String.eqb p _); [done|]). done.
Qed.

Lemma expectedShape_recognized (p : string) (v : Js) :
  expectedShape p v = None <-> recognizedPropsType p = false.
Proof.
  unfold recognizedPropsType, expectedShape. simpl.
  repeat (destruct (String.eqb p _)); simpl; split; done.
Qed.

Lemma renderForPropsType_unknown (cfg : ComponentConfig Factory)
    (field : Field number) (value : Js) (readOnly : bool) :
  recognizedPropsType (propsType cfg) = false ->
  renderForPropsType cfg field value readOnly
  = Threw (Error ("Field " +:+ name field +:+ " does not have a valid propsType")).
Proof.
  unfold recognizedPropsType, renderForPropsType. simpl.
  repeat (destruct (String.eqb (propsType cfg) _); [done|]). done.
Qed.

(** With no value supplied the dispatcher goes straight to its branches. *)
Lemma dispatch_undefined (field : Field number) (readOnly : bool)
    (cfg : ComponentConfig Factory) :
  Components !! type field = Some cfg ->
  dispatch field JUndefined readOnly
  = renderForPropsType cfg field JUndefined readOnly.
Proof. intros Hc. unfold ComponentForField. by rewrite Hc. Qed.

(** With a value that passes the check the dispatcher goes on to its
    branches. *)
Lemma dispatch_valid (field : Field number) (value : Js) (readOnly : bool)
    (cfg : ComponentConfig Factory) :
  Components !! type field = Some cfg ->
  isValueOfPropsType value value (propsType cfg) = Returned true ->
  dispatch field value readOnly = renderForPropsType cfg field value readOnly.
Proof.
  intros Hc Hv. unfold ComponentForField. rewrite Hc, Hv. simpl.
  by destruct (isUndefined value).
Qed.

(** A supplied value that fails the check is rejected with the message
    that names the field and the [propsType]. *)
Lemma dispatch_invalid (field : Field number) (value : Js) (readOnly : bool)
    (cfg : ComponentConfig Factory) :
  Components !! type field = Some cfg ->
  value <> JUndefined ->
  isValueOfPropsType value value (propsType cfg) = Returned false ->
  dispatch field value readOnly
  = Threw (Error (invalidValueMessage numberToString value (propsType cfg)
                    (name field))).
Proof.
  intros Hc Hu Hv. unfold ComponentForField. rewrite Hc, Hv.
  by destruct value.
Qed.

Lemma dispatch_accepted (field : Field number) (value : Js) (readOnly : bool)
    (cfg : ComponentConfig Factory) :
  Components !! type field = Some cfg ->
  valueAccepted value (propsType cfg) = true ->
  dispatch field value readOnly = renderForPropsType cfg field value readOnly.
Proof.
  intros Hc Ha. unfold valueAccepted in Ha.
  destruct (isUndefined value) eqn:Hu.
  - destruct value; try discriminate. by apply dispatch_undefined.
  - simpl in Ha.
    destruct (isValueOfPropsType value value (propsType cfg)) as [[]|] eqn:Hv;
      try discriminate.
    by apply dispatch_valid.
Qed.

(** Whatever the value, the dispatcher yields what its branches yield or
    throws one of the two errors of the value check. *)
Lemma dispatch_cases (field : Field number) (value : Js) (readOnly : bool)
    (cfg : ComponentConfig Factory) :
  Components !! type field = Some cfg ->
  dispatch field value readOnly = renderForPropsType cfg field value readOnly
  \/ dispatch field value readOnly
     = Threw (Error (invalidValueMessage numberToString value (propsType cfg)
                       (name field)))
  \/ dispatch field value readOnly
     = Threw (Error ("Unknown propsType " +:+ propsType cfg)).
Proof.
  intros Hc. unfold ComponentForField. rewrite Hc.
  destruct (isUndefined value); simpl; [by left|].
  destruct (recognizedPropsType (propsType cfg)) eqn:Hk.
  - destruct (isValueOfPropsType_known value value _ Hk) as [[] ->]; simpl; auto.
  - rewrite isValueOfPropsType_unknown by done. auto.
Qed.

Lemma renderForPropsType_no_value_error (cfg : ComponentConfig Factory)
    (field : Field number) (value v : Js) (readOnly : bool) (p n : string) :
  renderForPropsType cfg field value readOnly
  <> Threw (Error (invalidValueMessage numberToString v p n)).
Proof.
  unfold renderForPropsType, invalidValueMessage.
  repeat (destruct (String.eqb (propsType cfg) _); [repeat case_match; by intros [=]|]).
  by intros [=].
Qed.

(** C1, as the code has it: for a field whose type resolves to the select or
    the multiselect contract, the dispatcher throws whenever [options] is
    absent, whatever the value; the error is "Field options is not defined"
    once the value is absent or of the right shape. An empty [options] list
    is not rejected: with such a value the component is rendered with no
    options. *)
Theorem select_requires_defined_options (field : Field number) (value : Js)
    (readOnly : bool) (cfg : ComponentConfig Factory) :
  Components !! type field = Some cfg ->
  propsType cfg = "select" \/ propsType cfg = "multiselect" ->
  (options field = None ->
     exists msg, dispatch field value readOnly = Threw (Error msg))
  /\ (options field = None ->
      valueAccepted value (propsType cfg) = true ->
      dispatch field value readOnly = Threw (Error "Field options is not defined"))
  /\ (options field = Some [] ->
      valueAccepted value (propsType cfg) = true ->
      exists el,
        dispatch field value readOnly = Returned (Some el)
        /\ (props el = SelectProps readOnly value (placeholder field) []
            \/ props el = MultiselectProps (placeholder field) readOnly value [])).
Proof.
  intros Hc Hp.
  assert (Hr : options field = None ->
               renderForPropsType cfg field value readOnly
               = Threw (Error "Field options is not defined")).
  { intros Ho. unfold renderForPropsType.
    destruct Hp as [-> | ->]; simpl; by rewrite Ho. }
  split; [|split].
  - intros Ho. destruct (dispatch_cases field value readOnly cfg Hc) as [H|[H|H]];
      rewrite H; [rewrite Hr by done|..]; eauto.
  - intros Ho Ha. rewrite (dispatch_accepted _ _ _ _ Hc Ha). by apply Hr.
  - intros Ho Ha. rewrite (dispatch_accepted _ _ _ _ Hc Ha).
    unfold renderForPropsType.
    destruct Hp as [-> | ->]; simpl; rewrite Ho; simpl; eexists; split;
      try reflexivity; simpl; auto.
Qed.

(** C2: a supplied value that is not of the shape of the resolved
    [propsType] makes the dispatcher throw the error that names the field and
    the [propsType]; an absent value is not checked, the call goes to the
    branches and never ends in that error; a [propsType] that is not
    recognized makes it throw as well. On the text contract, "hello" is
    rendered and a number is rejected. *)
Theorem value_shape_is_enforced (field : Field number) (readOnly : bool)
    (cfg : ComponentConfig Factory) :
  Components !! type field = Some cfg ->
  (forall value : Js,
     value <> JUndefined ->
     expectedShape (propsType cfg) value = Some false ->
     dispatch field value readOnly
     = Threw (Error (invalidValueMessage numberToString value (propsType cfg)
                       (name field))))
  /\ (dispatch field JUndefined readOnly
      = renderForPropsType cfg field JUndefined readOnly
      /\ forall (v : Js) (p n : string),
          dispatch field JUndefined readOnly
          <> Threw (Error (invalidValueMessage numberToString v p n)))
  /\ (forall value : Js,
       expectedShape (propsType cfg) value = None ->
       exists msg, dispatch field value readOnly = Threw (Error msg))
  /\ (propsType cfg = "text" ->
      dispatch field (JStr "hello") readOnly
      = Returned (Some (WithLabel field readOnly (factory cfg)
                          (TextProps (placeholder field) (label field) readOnly
                             (name field) (JStr "hello"))))
      /\ forall n : number,
          dispatch field (JNum n) readOnly
          = Threw (Error ("Value " +:+ numberToString n
                          +:+ " is not valid for type text for field "
                          +:+ name field))).
Proof.
  intros Hc. split; [|split; [|split]].
  - intros value Hu Hs.
    assert (Hk : recognizedPropsType (propsType cfg) = true).
    { destruct (recognizedPropsType (propsType cfg)) eqn:Hk; [done|].
      apply (expectedShape_recognized _ value) in Hk. congruence. }
    destruct (isValueOfPropsType_known value value _ Hk) as [[] Hv].
    + apply isValueOfPropsType_sound in Hv. congruence.
    + by apply dispatch_invalid.
  - split; [by apply dispatch_undefined|].
    intros v p n. rewrite (dispatch_undefined _ _ _ Hc).
    apply renderForPropsType_no_value_error.
  - intros value Hs. apply expectedShape_recognized in Hs.
    destruct (dispatch_cases field value readOnly cfg Hc) as [H|[H|H]];
      rewrite H; [rewrite renderForPropsType_unknown by done|..]; eauto.
  - intros Hp. split.
    + rewrite (dispatch_valid _ _ _ _ Hc) by (by rewrite Hp).
      unfold renderForPropsType. by rewrite Hp.
    + intros n. rewrite (dispatch_invalid _ _ _ _ Hc) by (by rewrite ?Hp).
      by rewrite Hp.
Qed.

(** C3: on the objectiveWithInput contract, with [options] and
    [optionsInputs] defined and [options] empty, the dispatcher returns null
    and throws nothing, for a value that is absent or passed the check on the
    value, which comes first (for any value the call ends in null or in the
    error of that check, never in an error about the options); with
    [options] or [optionsInputs] absent it throws, whatever the value. *)
Theorem objectiveWithInput_empty_options_render_nothing
    (field : Field number) (value : Js) (readOnly : bool)
    (cfg : ComponentConfig Factory) :
  Components !! type field = Some cfg ->
  propsType cfg = "objectiveWithInput" ->
  (forall inputs,
     options field = Some [] ->
     optionsInputs field = Some inputs ->
     valueAccepted value (propsType cfg) = true ->
     dispatch field value readOnly = Returned None)
  /\ (options field = None \/ optionsInputs field = None ->
      exists msg, dispatch field value readOnly = Threw (Error msg))
  /\ (options field = None ->
      valueAccepted value (propsType cfg) = true ->
      dispatch field value readOnly = Threw (Error "Field options is not defined"))
  /\ (options field <> None ->
      optionsInputs field = None ->
      valueAccepted value (propsType cfg) = true ->
      dispatch field value readOnly
      = Threw (Error "Field optionsInputs is not defined"))
  /\ (forall inputs,
       options field = Some [] ->
       optionsInputs field = Some inputs ->
       dispatch field value readOnly = Returned None
       \/ (valueAccepted value (propsType cfg) = false
           /\ dispatch field value readOnly
              = Threw (Error (invalidValueMessage numberToString value
                                (propsType cfg) (name field))))).
Proof.
  intros Hc Hp.
  assert (Hr : renderForPropsType cfg field value readOnly
               = match options field with
                 | None => Threw (Error "Field options is not defined")
                 | Some opts =>
                     match optionsInputs field with
                     | None => Threw (Error "Field optionsInputs is not defined")
                     | Some inputs =>
                         if (0 <? Z.of_nat (length opts))%Z
                         then Returned (Some (WithLabel field readOnly (factory cfg)
                                (ObjectiveWithInputProps (placeholder field) readOnly
                                   (name field) value inputs opts)))
                         else Returned None
                     end
                 end).
  { unfold renderForPropsType. by rewrite Hp. }
  split; [|split; [|split; [|split]]].
  - intros inputs Ho Hi Ha. rewrite (dispatch_accepted _ _ _ _ Hc Ha), Hr.
    by rewrite Ho, Hi.
  - intros Hno.
    destruct (dispatch_cases field value readOnly cfg Hc) as [H|[H|H]];
      rewrite H; [|eauto..].
    rewrite Hr. destruct Hno as [-> | Hi]; [eauto|].
    rewrite Hi. destruct (options field); eauto.
  - intros Ho Ha. rewrite (dispatch_accepted _ _ _ _ Hc Ha), Hr. by rewrite Ho.
  - intros Ho Hi Ha. rewrite (dispatch_accepted _ _ _ _ Hc Ha), Hr.
    rewrite Hi. by destruct (options field).
  - intros inputs Ho Hi.
    destruct (valueAccepted value (propsType cfg)) eqn:Ha.
    + left. rewrite (dispatch_accepted _ _ _ _ Hc Ha), Hr. by rewrite Ho, Hi.
    + right. split; [done|]. unfold valueAccepted in Ha.
      apply orb_false_iff in Ha as [Hu Hv].
      assert (Hk : recognizedPropsType (propsType cfg) = true) by (by rewrite Hp).
      destruct (isValueOfPropsType_known value value _ Hk) as [b Hb].
      rewrite Hb in Hv. subst b.
      apply dispatch_invalid; [done| |done]. intros ->. discriminate.
Qed.

(** C10: for the objectiveWithInput [propsType] the check accepts exactly
    the non-null objects that have a key "value": the answer is a function of
    the enclosing [value] alone (the argument [val] is ignored), the member
    may be anything and no "optionValue" is asked for. So an object such as
    [{value: 42}] raises no error and the component is rendered bound to
    it. *)
Theorem objectiveWithInput_check_is_loose :
  (forall (value val : Js),
     isValueOfPropsType value val "objectiveWithInput"
     = Returned match value with
                | JObj props => hasProperty "value" props
                | _ => false
                end)
  /\ (forall (val member : Js) (more : list (string * Js)),
       isValueOfPropsType (JObj (("value", member) :: more)) val
         "objectiveWithInput" = Returned true)
  /\ (forall (field : Field number) (readOnly : bool)
         (cfg : ComponentConfig Factory) (n : number) opts inputs,
       Components !! type field = Some cfg ->
       propsType cfg = "objectiveWithInput" ->
       options field = Some opts ->
       opts <> [] ->
       optionsInputs field = Some inputs ->
       isValueWithOptionValue (JObj [("value", JNum n)]) = false
       /\ exists el,
           dispatch field (JObj [("value", JNum n)]) readOnly = Returned (Some el)
           /\ boundValue (props el) = JObj [("value", JNum n)]).
Proof.
  split; [|split].
  - intros value val. unfold isValueOfPropsType. simpl. by destruct value.
  - intros val member more. reflexivity.
  - intros field readOnly cfg n opts inputs Hc Hp Ho Hne Hi. split; [done|].
    rewrite (dispatch_valid _ _ _ _ Hc) by (by rewrite Hp).
    unfold renderForPropsType. rewrite Hp, Ho, Hi. simpl.
    destruct opts as [|o opts]; [done|]. simpl. eexists. split; reflexivity.
Qed.

End DispatcherFacts.

(** * Properties of the schema collection editor *)

Section EditorFacts.
Context {number : Type}.

Local Abbreviation Fld := (Field number).

Lemma lookupZ_of_nat {A : Type} (l : list A) (i : nat) :
  lookupZ l (Z.of_nat i) = l !! i.
Proof.
  unfold lookupZ. destruct (Z.ltb_spec (Z.of_nat i) 0); [lia|].
  by rewrite Nat2Z.id.
Qed.

Lemma update_in_range (l : list Fld) (i : nat) (value : Fld) :
  i < length l ->
  update (Z.of_nat i) value l = Some (<[i := value]> l).
Proof.
  intros Hi. unfold update.
  destruct (Z.ltb_spec (Z.of_nat i) 0); [lia|].
  destruct (Z.ltb_spec (Z.of_nat i) (Z.of_nat (length l))); [|lia].
  by rewrite Nat2Z.id.
Qed.

Lemma swap_in_range (l : list Fld) (i j : nat) (a b : Fld) :
  l !! i = Some a -> l !! j = Some b ->
  swap (Z.of_nat i) (Z.of_nat j) l = Some (<[i := b]> (<[j := a]> l)).
Proof.
  intros Ha Hb. unfold swap. rewrite !lookupZ_of_nat, Ha, Hb.
  by rewrite !Nat2Z.id.
Qed.

(** Exchanging two entries twice gives the collection back. *)
Lemma swap_swap (l : list Fld) (i j : nat) :
  i < length l -> j < length l ->
  exists l',
    swap (Z.of_nat i) (Z.of_nat j) l = Some l'
    /\ swap (Z.of_nat i) (Z.of_nat j) l' = Some l.
Proof.
  intros Hi Hj.
  destruct (lookup_lt_is_Some_2 l i Hi) as [a Ha].
  destruct (lookup_lt_is_Some_2 l j Hj) as [b Hb].
  exists (<[i := b]> (<[j := a]> l)). split; [by apply swap_in_range|].
  assert (Hi' : <[i := b]> (<[j := a]> l) !! i = Some b).
  { apply list_lookup_insert_eq. by rewrite length_insert. }
  assert (Hj' : <[i := b]> (<[j := a]> l) !! j = Some a).
  { destruct (decide (i = j)) as [->|Hne].
    - rewrite Hi'. congruence.
    - rewrite list_lookup_insert_ne by done. by apply list_lookup_insert_eq. }
  rewrite (swap_in_range _ i j b a Hi' Hj'). f_equal.
  apply list_eq. intros k.
  destruct (decide (i = k)) as [<-|Hik].
  { rewrite list_lookup_insert_eq by (by rewrite !length_insert). done. }
  rewrite list_lookup_insert_ne by done.
  destruct (decide (j = k)) as [<-|Hjk].
  { rewrite list_lookup_insert_eq by (by rewrite !length_insert). done. }
  by rewrite !list_lookup_insert_ne by done.
Qed.

(** C9: for adjacent indices [i] and [i+1] inside the collection, [swap]
    has a result, and applying it to that result once more gives the
    collection back in its original order. *)
Theorem swap_adjacent_involution (l : list Fld) (i : Z) :
  (0 <= i)%Z ->
  (i + 1 < Z.of_nat (length l))%Z ->
  exists l',
    swap i (i + 1) l = Some l'
    /\ length l' = length l
    /\ swap i (i + 1) l' = Some l.
Proof.
  intros H0 Hlt.
  destruct (swap_swap l (Z.to_nat i) (Z.to_nat (i + 1))) as (l' & H1 & H2);
    [lia | lia |].
  rewrite !Z2Nat.id in H1, H2 by lia.
  exists l'. split; [done|]. split; [|done].
  unfold swap in H1. repeat case_match; try done.
  injection H1 as <-. by rewrite !length_insert.
Qed.

(** C4: submitting the dialog. In create mode the collection is the old one
    followed by the draft with its [sources] stamped and [editable] defaulted
    to "user"; in edit mode the entry at the bound index becomes the draft;
    the other entries stay and the dialog is closed in both. *)
Theorem handleSubmit_creates_or_replaces (data : Fld) (st : State number) :
  (fieldIndex (fieldDialog st) = (-1)%Z ->
   exists st',
     handleSubmit data st = Some st'
     /\ fields st'
        = fields st
          ++ [ {| name := name data; label := label data;
                  defaultLabel := defaultLabel data; type := type data;
                  required := required data; hidden := hidden data;
                  editable := match editable data with
                              | Some e => Some e
                              | None => Some user
                              end;
                  placeholder := placeholder data;
                  defaultPlaceholder := defaultPlaceholder data;
                  options := options data;
                  optionsInputs := optionsInputs data;
                  sources := Some [ {| src_label := "User"; src_type := "user";
                                       src_id := "user";
                                       fieldRequired := required data |} ] |} ]
     /\ length (fields st') = S (length (fields st))
     /\ (forall j, j < length (fields st) -> fields st' !! j = fields st !! j)
     /\ fieldDialog st' = {| isOpen := false; fieldIndex := -1 |})
  /\ (forall i : nat,
        fieldIndex (fieldDialog st) = Z.of_nat i ->
        i < length (fields st) ->
        exists st',
          handleSubmit data st = Some st'
          /\ fields st' = <[i := data]> (fields st)
          /\ fields st' !! i = Some data
          /\ length (fields st') = length (fields st)
          /\ (forall j, j <> i -> fields st' !! j = fields st !! j)
          /\ fieldDialog st' = {| isOpen := false; fieldIndex := -1 |}).
Proof.
  split.
  - intros Hi. unfold handleSubmit. rewrite Hi. simpl.
    eexists. split; [reflexivity|]. simpl. unfold append.
    split; [by destruct (editable data)|].
    split; [rewrite length_app; simpl; lia|].
    split; [|done]. intros j Hj. by rewrite lookup_app_l.
  - intros i Hi Hlen. unfold handleSubmit. rewrite Hi.
    destruct (Z.eqb_spec (Z.of_nat i) (-1)); [lia|]. simpl.
    rewrite update_in_range by done. simpl.
    eexists. split; [reflexivity|]. simpl.
    split; [done|]. split; [by apply list_lookup_insert_eq|].
    split; [by rewrite length_insert|]. split; [|done].
    intros j Hne. by apply list_lookup_insert_ne.
Qed.

(** C7: an entry with [editable = "system"] has neither the delete control
    nor the hidden switch in its row (an entry with "system-but-optional" has
    no delete control either), so no control of the row leads to
    [removeField] or to an update of [hidden]; and in the dialog opened on
    it the type selector and the name input are disabled. *)
Theorem system_fields_are_protected (field : Fld) :
  (editable field = Some system ->
   rowControls field = [ArrowUp; ArrowDown; EditButton]
   /\ (DeleteButton ∉ rowControls field)
   /\ (forall checked, HiddenSwitch checked ∉ rowControls field)
   /\ forall (index : Z) (st : State number),
        typeSelectDisabled (renderDialog (editField index field st)) = true
        /\ nameInputDisabled (renderDialog (editField index field st)) = true)
  /\ (editable field = Some system_but_optional ->
      (DeleteButton ∉ rowControls field)
      /\ forall (index : Z) (st : State number),
           typeSelectDisabled (renderDialog (editField index field st)) = true
           /\ nameInputDisabled (renderDialog (editField index field st)) = true).
Proof.
  unfold rowControls, renderDialog, formEditableIs, isEditable, editField.
  split; intros He; simpl; rewrite He; simpl.
  - split; [done|].
    split; [rewrite !elem_of_cons, elem_of_nil; by intros [|[|[|[]]]]|].
    split; [|done].
    intros b. rewrite !elem_of_cons, elem_of_nil. by intros [|[|[|[]]]].
  - split; [|done].
    rewrite !elem_of_cons, elem_of_nil. by intros [|[|[|[|[]]]]].
Qed.

(** C8: on an entry that is not "system", flipping the hidden switch sets
    [hidden] to its negation, keeps every other property of the entry and
    every other entry; the switch is among the controls of the row unless
    the entry is "user-readonly", and clicking it is this update. *)
Theorem toggleHidden_changes_hidden_only (st : State number) (i : nat)
    (field : Fld) :
  fields st !! i = Some field ->
  editable field <> Some system ->
  (editable field <> Some user_readonly ->
   (HiddenSwitch (switchChecked field) ∈ rowControls field))
  /\ click (Z.of_nat i) field (HiddenSwitch (switchChecked field)) st
     = toggleHidden (Z.of_nat i) field st
  /\ exists st' field',
       toggleHidden (Z.of_nat i) field st = Some st'
       /\ fields st' !! i = Some field'
       /\ hidden field' = Some (negb (truthyBool (hidden field)))
       /\ name field' = name field
       /\ label field' = label field
       /\ defaultLabel field' = defaultLabel field
       /\ type field' = type field
       /\ required field' = required field
       /\ editable field' = editable field
       /\ placeholder field' = placeholder field
       /\ defaultPlaceholder field' = defaultPlaceholder field
       /\ options field' = options field
       /\ optionsInputs field' = optionsInputs field
       /\ sources field' = sources field
       /\ length (fields st') = length (fields st)
       /\ (forall j, j <> i -> fields st' !! j = fields st !! j)
       /\ fieldDialog st' = fieldDialog st
       /\ fieldForm st' = fieldForm st.
Proof.
  intros Hf Hsys. split; [|split; [done|]].
  - intros Hro. unfold rowControls, isEditable.
    destruct (editable field) as [[]|]; try done; simpl;
      rewrite !elem_of_cons; auto.
  - unfold toggleHidden, onCheckedChange.
    rewrite update_in_range by (by eapply lookup_lt_Some). simpl.
    eexists _, _. split; [reflexivity|]. simpl.
    split; [apply list_lookup_insert_eq; by eapply lookup_lt_Some|]. simpl.
    split. { unfold switchChecked. by rewrite !negb_involutive. }
    repeat (split; [done|]).
    split; [by rewrite length_insert|].
    split; [|done]. intros j Hne. by apply list_lookup_insert_ne.
Qed.

End EditorFacts.

(** * Properties of the request guard chain *)

Import Trpc.

Section GuardFacts.
Context {number : Type} `{EqDecision number} {Session Data : Type}.
Variable toNumber : JsValue number -> number.
Variable isNaN : number -> bool.
Variable memberships : list (Membership number).
Variable handler : Context number Session -> JsValue number -> TRPCError + Data.
Variables (input : JsValue number) (callPath callType : string).

Local Abbreviation call := (callProcedure handler input callPath callType).
Local Abbreviation teamProcedure :=
  (userBelongsToTeamProcedure (Session := Session) (Data := Data)
     toNumber isNaN memberships).

Lemma context_eta (c : Context number Session) u s :
  user c = Some u -> session c = Some s ->
  {| user := Some u; session := Some s; others := others c |} = c.
Proof. destruct c; simpl; by intros -> ->. Qed.

(** The authentication stage turns away a context without user or without
    session, and nothing after it runs. *)
Lemma isAuthed_rejects (c : Context number Session)
    (later : list Middleware) tr :
  user c = None \/ session c = None ->
  callRecursive handler input callPath callType (isAuthedMiddleware :: later) c tr
  = (inr (ResultError {| code := UNAUTHORIZED |}), tr).
Proof.
  intros Hno. simpl. unfold tryCatch, isAuthedMiddleware. simpl.
  destruct Hno as [-> | ->]; [done|]. by destruct (user c).
Qed.

(** The authentication stage hands an authenticated context on, as it is. *)
Lemma isAuthed_passes (c : Context number Session) u s
    (later : list Middleware) tr :
  user c = Some u -> session c = Some s ->
  callRecursive handler input callPath callType (isAuthedMiddleware :: later) c tr
  = callRecursive handler input callPath callType later c tr.
Proof.
  intros Hu Hs. simpl. unfold isAuthedMiddleware. simpl. rewrite Hu, Hs.
  unfold mergeContext. simpl. rewrite (context_eta c u s Hu Hs).
  unfold tryCatch.
  destruct later as [|m later]; simpl; unfold tryCatch;
    by repeat case_match.
Qed.

(** The resolver runs the handler and records that it did. *)
Lemma resolver_runs (c : Context number Session) tr :
  tryCatch (resolveMiddleware handler input c)
    (fun e => ret (ResultError e)) tr
  = (inr match handler c input with
         | inr data => ResultOk data
         | inl e => ResultError e
         end, tr ++ [ResolverCalled c input]).
Proof.
  unfold tryCatch, resolveMiddleware, bind, emit, ret.
  by destruct (handler c input).
Qed.

(** Calling a procedure that starts with [perfMiddleware]. *)
Lemma call_perf (rest : list Middleware) (c : Context number Session) r tr :
  callRecursive handler input callPath callType rest c [PerformanceMark "Start"]
  = (inr r, tr) ->
  call (perfMiddleware :: rest) c
  = (match r with ResultOk data => inr data | ResultError e => inl e end,
     tr ++ [ PerformanceMark "End";
             PerformanceMeasure (measureName (ok r) callType callPath)
               "Start" "End" ]).
Proof.
  intros Hr. unfold callProcedure. simpl.
  unfold tryCatch, perfMiddleware, bind, emit, ret. simpl.
  rewrite Hr. simpl. rewrite <- app_assoc. simpl. by destruct r.
Qed.

Lemma find_is_None {A : Type} (f : A -> bool) (l : list A) :
  (forall x, x ∈ l -> f x = false) -> List.find f l = None.
Proof.
  induction l as [|a l IH]; simpl; [done|]. intros Hall.
  rewrite (Hall a) by apply list_elem_of_here.
  apply IH. intros x Hx. apply Hall. by apply list_elem_of_further.
Qed.

Lemma find_is_Some {A : Type} (f : A -> bool) (l : list A) (x : A) :
  x ∈ l -> f x = true -> exists y, List.find f l = Some y.
Proof.
  induction l as [|a l IH]; simpl; intros Hx Hf.
  - by apply elem_of_nil in Hx.
  - destruct (f a) eqn:Ha; [eauto|].
    apply elem_of_cons in Hx as [->|Hx]; [congruence|]. by apply IH.
Qed.

(** X24: a public procedure turns no request away: on every context, also
    one without user and session, the handler runs and its result is the
    answer. *)
Lemma publicProcedure_runs_handler (c : Context number Session) :
  call publicProcedure c
  = (handler c input,
     [ PerformanceMark "Start"; ResolverCalled c input; PerformanceMark "End";
       PerformanceMeasure (measureName (isOk (handler c input)) callType callPath)
         "Start" "End" ]).
Proof.
  unfold publicProcedure, use, t_procedure. simpl.
  erewrite call_perf; [|apply resolver_runs].
  simpl. by destruct (handler c input).
Qed.

(** C5: without a user or without a session, a procedure that has the
    authentication stage answers UNAUTHORIZED whatever stages come later and
    whatever the handler is, and the trace holds the two marks and the
    measurement only: no later stage and no handler ran. On the admin
    procedure an authenticated user whose role is not ADMIN gets UNAUTHORIZED
    in the same way, and for an ADMIN user the handler runs on the context
    and its result is the answer. *)
Theorem authentication_and_role_guard (c : Context number Session) :
  (user c = None \/ session c = None ->
   (forall later : list (@Middleware number Session Data),
      call (use authedProcedure later) c
      = (inl {| code := UNAUTHORIZED |}, rejectedTrace callPath callType))
   /\ call authedProcedure c
      = (inl {| code := UNAUTHORIZED |}, rejectedTrace callPath callType)
   /\ call authedAdminProcedure c
      = (inl {| code := UNAUTHORIZED |}, rejectedTrace callPath callType)
   /\ call teamProcedure c
      = (inl {| code := UNAUTHORIZED |}, rejectedTrace callPath callType))
  /\ (forall u s,
        user c = Some u -> session c = Some s ->
        role u <> "ADMIN" ->
        call authedAdminProcedure c
        = (inl {| code := UNAUTHORIZED |}, rejectedTrace callPath callType))
  /\ (forall u s,
        user c = Some u -> session c = Some s ->
        role u = "ADMIN" ->
        call authedAdminProcedure c
        = (handler c input,
           [ PerformanceMark "Start"; ResolverCalled c input;
             PerformanceMark "End";
             PerformanceMeasure
               (measureName (isOk (handler c input)) callType callPath)
               "Start" "End" ])).
Proof.
  split; [|split].
  - intros Hno.
    assert (Hgen : forall later : list (@Middleware number Session Data),
              call (perfMiddleware :: isAuthedMiddleware :: later) c
              = (inl {| code := UNAUTHORIZED |}, rejectedTrace callPath callType)).
    { intros later. by rewrite (call_perf _ _ _ _ (isAuthed_rejects c later _ Hno)). }
    repeat split; apply Hgen.
  - intros u s Hu Hs Hrole.
    unfold authedAdminProcedure, isAdminMiddleware, use, t_procedure. simpl.
    rewrite (call_perf _ _ (ResultError {| code := UNAUTHORIZED |})
               [PerformanceMark "Start"]); [done|].
    rewrite (isAuthed_passes c u s _ _ Hu Hs). simpl.
    unfold tryCatch, isAdminStage. simpl. rewrite Hu.
    apply String.eqb_neq in Hrole. by rewrite Hrole.
  - intros u s Hu Hs Hrole.
    unfold authedAdminProcedure, isAdminMiddleware, use, t_procedure. simpl.
    erewrite call_perf.
    2:{ rewrite (isAuthed_passes c u s _ _ Hu Hs). simpl.
        unfold tryCatch at 1. unfold isAdminStage. simpl. rewrite Hu, Hrole.
        simpl. unfold mergeContext. simpl. rewrite Hs.
        rewrite (context_eta c u s Hu Hs).
        rewrite (resolver_runs c). reflexivity. }
    simpl. by destruct (handler c input).
Qed.

(** C6: for an authenticated request to the team procedure, an input that
    the schema refuses (as when [teamId] coerces to NaN) is answered
    BAD_REQUEST without any query; an input with a [teamId] for which the
    table has no row of this user is answered UNAUTHORIZED after the query,
    the handler not being run; and when such a row exists the handler runs
    on the unchanged context and its result is the answer. *)
Theorem team_membership_guard (c : Context number Session) u s :
  user c = Some u -> session c = Some s ->
  (UserBelongsToTeamInput_safeParse toNumber isNaN input = None ->
   call teamProcedure c
   = (inl {| code := BAD_REQUEST |}, rejectedTrace callPath callType))
  /\ (forall props v,
        input = JObj props ->
        getProperty "teamId" props = Some v ->
        v <> JUndefined ->
        isNaN (toNumber v) = true ->
        UserBelongsToTeamInput_safeParse toNumber isNaN input = None)
  /\ (forall tid,
        UserBelongsToTeamInput_safeParse toNumber isNaN input = Some (Some tid) ->
        (forall m, m ∈ memberships -> ~ (userId m = id u /\ teamId m = tid)) ->
        call teamProcedure c
        = (inl {| code := UNAUTHORIZED |},
           [ PerformanceMark "Start";
             MembershipFindFirst (id u) (Some tid);
             PerformanceMark "End";
             PerformanceMeasure (measureName false callType callPath)
               "Start" "End" ]))
  /\ (forall tid m,
        UserBelongsToTeamInput_safeParse toNumber isNaN input = Some (Some tid) ->
        m ∈ memberships -> userId m = id u -> teamId m = tid ->
        call teamProcedure c
        = (handler c input,
           [ PerformanceMark "Start";
             MembershipFindFirst (id u) (Some tid);
             ResolverCalled c input;
             PerformanceMark "End";
             PerformanceMeasure
               (measureName (isOk (handler c input)) callType callPath)
               "Start" "End" ])).
Proof.
  intros Hu Hs.
  assert (Hstage : forall tr,
    callRecursive handler input callPath callType
      [isAuthedMiddleware; userBelongsToTeamMiddleware toNumber isNaN memberships]
      c tr
    = tryCatch
        (userBelongsToTeamMiddleware toNumber isNaN memberships
           {| ctx := c; rawInput := input; path := callPath; type := callType;
              next := fun _ =>
                callRecursive handler input callPath callType [] c |})
        (fun e => ret (ResultError e)) tr).
  { intros tr. rewrite (isAuthed_passes c u s _ _ Hu Hs). simpl.
    unfold tryCatch, userBelongsToTeamMiddleware. simpl. reflexivity. }
  unfold userBelongsToTeamProcedure, use, t_procedure. simpl.
  split; [|split; [|split]].
  - intros Hp.
    rewrite (call_perf _ _ (ResultError {| code := BAD_REQUEST |})
               [PerformanceMark "Start"]); [done|].
    rewrite Hstage. unfold tryCatch, userBelongsToTeamMiddleware. simpl.
    by rewrite Hu, Hs, Hp.
  - intros props v Hin Hv Hund Hnan. rewrite Hin. simpl. rewrite Hv, Hnan.
    by destruct v.
  - intros tid Hp Hnone.
    rewrite (call_perf _ _ (ResultError {| code := UNAUTHORIZED |})
               [PerformanceMark "Start"; MembershipFindFirst (id u) (Some tid)]);
      [done|].
    rewrite Hstage. unfold tryCatch, userBelongsToTeamMiddleware. simpl.
    rewrite Hu, Hs, Hp. unfold bind, membership_findFirst, bind, emit, ret. simpl.
    rewrite find_is_None; [done|].
    intros m Hm. specialize (Hnone m Hm).
    apply andb_false_iff. rewrite !bool_decide_eq_false.
    destruct (decide (userId m = id u)); [right|by left].
    intros Ht. by apply Hnone.
  - intros tid m Hp Hm Hmu Hmt. erewrite call_perf.
    2:{ rewrite Hstage. unfold tryCatch at 1. unfold userBelongsToTeamMiddleware.
        simpl. rewrite Hu, Hs, Hp.
        unfold bind, membership_findFirst, bind, emit, ret. simpl.
        edestruct (find_is_Some
                     (fun m0 : Membership number =>
                        bool_decide (userId m0 = id u)
                        && bool_decide (teamId m0 = tid)) memberships m Hm)
          as [y ->].
        { by rewrite !bool_decide_eq_true_2. }
        rewrite (resolver_runs c). reflexivity. }
    simpl. by destruct (handler c input).
Qed.

End GuardFacts.

(** * The code on concrete inputs *)

Section Evaluation.

Local Abbreviation dispatchSample :=
  (ComponentForField sampleNumberToString Components_spec).

(** C1 as stated fails: a select field whose [options] is the empty list is
    rendered, with no options, and nothing is thrown. *)
Lemma select_with_empty_options_is_rendered :
  FormBuilder.type (sampleField "select" (Some []) None) = "select"
  /\ options (sampleField "select" (Some []) None) = Some []
  /\ dispatchSample (sampleField "select" (Some []) None) JUndefined false
     = Returned (Some {| labelLine := Some ("Question", "*");
                         component := "select";
                         props := SelectProps false JUndefined None [] |})
  /\ forall e,
       dispatchSample (sampleField "select" (Some []) None) JUndefined false
       <> Threw e.
Proof.
  split; [reflexivity|]. split; [reflexivity|].
  split; [vm_compute; reflexivity|].
  intros e. vm_compute. discriminate.
Qed.

Lemma select_requires_defined_options_witness :
  Components_spec !! "select" = Some {| propsType := "select"; factory := "select" |}
  /\ dispatchSample (sampleField "select" None None) (JStr "1") false
     = Threw (Error "Field options is not defined").
Proof.
  assert (Hc : Components_spec !! FormBuilder.type (sampleField "select" None None)
               = Some {| propsType := "select"; factory := "select" |})
    by (vm_compute; reflexivity).
  split; [exact Hc|].
  destruct (select_requires_defined_options sampleNumberToString Components_spec
              (sampleField "select" None None) (JStr "1") false _ Hc
              (or_introl eq_refl)) as (_ & Habsent & _).
  apply Habsent; reflexivity.
Defined.

Lemma value_shape_is_enforced_witness :
  Components_spec !! "text" = Some {| propsType := "text"; factory := "text" |}
  /\ dispatchSample (sampleField "text" None None) (JNum (SInt 42)) false
     = Threw (Error "Value 42 is not valid for type text for field question")
  /\ dispatchSample (sampleField "text" None None) (JStr "hello") false
     = Returned (Some {| labelLine := Some ("Question", "*");
                         component := "text";
                         props := TextProps None (Some "Question") false
                                    "question" (JStr "hello") |}).
Proof.
  assert (Hc : Components_spec !! FormBuilder.type (sampleField "text" None None)
               = Some {| propsType := "text"; factory := "text" |})
    by (vm_compute; reflexivity).
  split; [exact Hc|].
  destruct (value_shape_is_enforced sampleNumberToString Components_spec
              (sampleField "text" None None) false _ Hc) as (_ & _ & _ & Htext).
  destruct (Htext eq_refl) as [Hhello Hnumber].
  split; [exact (Hnumber (SInt 42)) | exact Hhello].
Defined.

Lemma objectiveWithInput_empty_options_render_nothing_witness :
  Components_spec !! "objectiveWithInput"
  = Some {| propsType := "objectiveWithInput"; factory := "objectiveWithInput" |}
  /\ dispatchSample (sampleField "objectiveWithInput" (Some []) (Some []))
       JUndefined false
     = Returned None.
Proof.
  assert (Hc : Components_spec
                 !! FormBuilder.type (sampleField "objectiveWithInput" (Some []) (Some []))
               = Some {| propsType := "objectiveWithInput";
                         factory := "objectiveWithInput" |})
    by (vm_compute; reflexivity).
  split; [exact Hc|].
  destruct (objectiveWithInput_empty_options_render_nothing
              sampleNumberToString Components_spec
              (sampleField "objectiveWithInput" (Some []) (Some []))
              JUndefined false _ Hc eq_refl) as (Hempty & _).
  apply (Hempty []); reflexivity.
Defined.

Lemma objectiveWithInput_check_is_loose_witness :
  Components_spec !! "objectiveWithInput"
  = Some {| propsType := "objectiveWithInput"; factory := "objectiveWithInput" |}
  /\ exists el,
       dispatchSample (sampleField "objectiveWithInput" (Some twoOptions) (Some []))
         (JObj [("value", JNum (SInt 42))]) false
       = Returned (Some el)
       /\ boundValue (props el) = JObj [("value", JNum (SInt 42))].
Proof.
  assert (Hc : Components_spec
                 !! FormBuilder.type (sampleField "objectiveWithInput" (Some twoOptions) (Some []))
               = Some {| propsType := "objectiveWithInput";
                         factory := "objectiveWithInput" |})
    by (vm_compute; reflexivity).
  split; [exact Hc|].
  destruct (objectiveWithInput_check_is_loose sampleNumberToString Components_spec)
    as (_ & _ & Hrender).
  apply (Hrender (sampleField "objectiveWithInput" (Some twoOptions) (Some []))
           false _ (SInt 42) twoOptions [] Hc eq_refl eq_refl);
    [discriminate | reflexivity].
Defined.

Lemma swap_adjacent_involution_witness :
  (0 <= 1)%Z
  /\ (1 + 1 < Z.of_nat (length (fields sampleState)))%Z
  /\ exists l',
       swap 1 (1 + 1) (fields sampleState) = Some l'
       /\ length l' = length (fields sampleState)
       /\ swap 1 (1 + 1) l' = Some (fields sampleState).
Proof.
  split; [lia|]. split; [simpl; lia|].
  apply (swap_adjacent_involution (fields sampleState) 1); [lia | simpl; lia].
Defined.

Lemma handleSubmit_creates_or_replaces_witness :
  fieldIndex (fieldDialog sampleState) = (-1)%Z
  /\ (exists st',
        handleSubmit (sampleEntry "phone" "phone" None) sampleState = Some st'
        /\ length (fields st') = 4
        /\ fieldDialog st' = {| isOpen := false; fieldIndex := -1 |})
  /\ fieldIndex (fieldDialog sampleEditState) = 1%Z
  /\ exists st',
       handleSubmit (sampleEntry "remarks" "text" (Some system_but_optional))
         sampleEditState = Some st'
       /\ fields st' !! 1
          = Some (sampleEntry "remarks" "text" (Some system_but_optional))
       /\ fields st' !! 0 = fields sampleEditState !! 0.
Proof.
  split; [reflexivity|]. split.
  - destruct (proj1 (handleSubmit_creates_or_replaces
                       (sampleEntry "phone" "phone" None) sampleState) eq_refl)
      as (st' & Hst & _ & Hlen & _ & Hdialog).
    exists st'. split; [exact Hst|]. split; [exact Hlen | exact Hdialog].
  - split; [reflexivity|].
    destruct (proj2 (handleSubmit_creates_or_replaces
                       (sampleEntry "remarks" "text" (Some system_but_optional))
                       sampleEditState) 1%nat eq_refl)
      as (st' & Hst & _ & Hat & _ & Hother & _); [simpl; lia|].
    exists st'. split; [exact Hst|]. split; [exact Hat|].
    apply Hother. lia.
Defined.

Lemma system_fields_are_protected_witness :
  editable (sampleEntry "name" "name" (Some system)) = Some system
  /\ rowControls (sampleEntry "name" "name" (Some system))
     = [ArrowUp; ArrowDown; EditButton]
  /\ typeSelectDisabled
       (renderDialog (editField 0 (sampleEntry "name" "name" (Some system))
                        sampleState)) = true.
Proof.
  split; [reflexivity|].
  destruct (proj1 (system_fields_are_protected
                     (sampleEntry "name" "name" (Some system))) eq_refl)
    as (Hrow & _ & _ & Hdialog).
  split; [exact Hrow|]. exact (proj1 (Hdialog 0%Z sampleState)).
Defined.

Lemma toggleHidden_changes_hidden_only_witness :
  fields sampleState !! 2 = Some (sampleEntry "company" "text" (Some FormBuilder.user))
  /\ editable (sampleEntry "company" "text" (Some FormBuilder.user)) <> Some system
  /\ exists st' field',
       toggleHidden 2 (sampleEntry "company" "text" (Some FormBuilder.user)) sampleState
       = Some st'
       /\ fields st' !! 2 = Some field'
       /\ hidden field' = Some true
       /\ name field' = "company".
Proof.
  split; [reflexivity|]. split; [discriminate|].
  destruct (toggleHidden_changes_hidden_only sampleState 2
              (sampleEntry "company" "text" (Some FormBuilder.user)) eq_refl)
    as (_ & _ & st' & field' & Hst & Hat & Hhidden & Hname & _);
    [discriminate|].
  exists st', field'.
  split; [exact Hst|]. split; [exact Hat|]. split; [exact Hhidden | exact Hname].
Defined.

Lemma authentication_and_role_guard_witness :
  user anonymousContext = None
  /\ callProcedure sampleHandler (JObj []) "viewer.me" "query"
       authedProcedure anonymousContext
     = (inl {| code := UNAUTHORIZED |}, rejectedTrace "viewer.me" "query")
  /\ callProcedure sampleHandler (JObj []) "viewer.me" "query"
       authedAdminProcedure (sampleContext "USER")
     = (inl {| code := UNAUTHORIZED |}, rejectedTrace "viewer.me" "query")
  /\ callProcedure sampleHandler (JObj []) "viewer.me" "query"
       authedAdminProcedure (sampleContext "ADMIN")
     = (inr "handled",
        [ PerformanceMark "Start";
          ResolverCalled (sampleContext "ADMIN") (JObj []);
          PerformanceMark "End";
          PerformanceMeasure "[OK][$1] query 'viewer.me'" "Start" "End" ]).
Proof.
  split; [reflexivity|]. split; [|split].
  - destruct (authentication_and_role_guard sampleToNumber sampleIsNaN
                sampleMemberships sampleHandler (JObj []) "viewer.me" "query"
                anonymousContext) as (Hanonymous & _).
    exact (proj1 (proj2 (Hanonymous (or_introl eq_refl)))).
  - destruct (authentication_and_role_guard sampleToNumber sampleIsNaN
                sampleMemberships sampleHandler (JObj []) "viewer.me" "query"
                (sampleContext "USER")) as (_ & Hrole & _).
    apply (Hrole (sampleUser "USER") "session"); [reflexivity..|discriminate].
  - destruct (authentication_and_role_guard sampleToNumber sampleIsNaN
                sampleMemberships sampleHandler (JObj []) "viewer.me" "query"
                (sampleContext "ADMIN")) as (_ & _ & Hadmin).
    apply (Hadmin (sampleUser "ADMIN") "session"); reflexivity.
Defined.

Lemma team_membership_guard_witness :
  user (sampleContext "USER") = Some (sampleUser "USER")
  /\ session (sampleContext "USER") = Some "session"
  /\ callProcedure sampleHandler (JObj [("teamId", JNum (SInt 5))])
       "viewer.teams.get" "query"
       (userBelongsToTeamProcedure sampleToNumber sampleIsNaN sampleMemberships)
       (sampleContext "USER")
     = (inr "handled",
        [ PerformanceMark "Start";
          MembershipFindFirst (SInt 7) (Some (SInt 5));
          ResolverCalled (sampleContext "USER")
            (JObj [("teamId", JNum (SInt 5))]);
          PerformanceMark "End";
          PerformanceMeasure "[OK][$1] query 'viewer.teams.get'" "Start" "End" ])
  /\ callProcedure sampleHandler (JObj [("teamId", JNum (SInt 5))])
       "viewer.teams.get" "query"
       (userBelongsToTeamProcedure sampleToNumber sampleIsNaN membershipsOfOthers)
       (sampleContext "USER")
     = (inl {| code := UNAUTHORIZED |},
        [ PerformanceMark "Start";
          MembershipFindFirst (SInt 7) (Some (SInt 5));
          PerformanceMark "End";
          PerformanceMeasure "[ERROR][$1] query 'viewer.teams.get'" "Start" "End" ])
  /\ callProcedure sampleHandler (JObj [("teamId", JStr "five")])
       "viewer.teams.get" "query"
       (userBelongsToTeamProcedure sampleToNumber sampleIsNaN sampleMemberships)
       (sampleContext "USER")
     = (inl {| code := BAD_REQUEST |}, rejectedTrace "viewer.teams.get" "query").
Proof.
  split; [reflexivity|]. split; [reflexivity|]. split; [|split].
  - destruct (team_membership_guard sampleToNumber sampleIsNaN sampleMemberships
                sampleHandler (JObj [("teamId", JNum (SInt 5))])
                "viewer.teams.get" "query" (sampleContext "USER")
                (sampleUser "USER") "session" eq_refl eq_refl)
      as (_ & _ & _ & Hmember).
    apply (Hmember (SInt 5) {| userId := SInt 7; teamId := SInt 5 |});
      [reflexivity | | reflexivity | reflexivity].
    apply list_elem_of_further, list_elem_of_here.
  - destruct (team_membership_guard sampleToNumber sampleIsNaN membershipsOfOthers
                sampleHandler (JObj [("teamId", JNum (SInt 5))])
                "viewer.teams.get" "query" (sampleContext "USER")
                (sampleUser "USER") "session" eq_refl eq_refl)
      as (_ & _ & Hstranger & _).
    apply (Hstranger (SInt 5)); [reflexivity|].
    intros m Hm [Huser Hteam].
    apply elem_of_cons in Hm as [-> | Hm]; [discriminate Huser|].
    apply elem_of_cons in Hm as [-> | Hm]; [discriminate Hteam|].
    by apply elem_of_nil in Hm.
  - destruct (team_membership_guard sampleToNumber sampleIsNaN sampleMemberships
                sampleHandler (JObj [("teamId", JStr "five")])
                "viewer.teams.get" "query" (sampleContext "USER")
                (sampleUser "USER") "session" eq_refl eq_refl)
      as (Hbad & _).
    apply Hbad. reflexivity.
Defined.

End Evaluation.

(** * Further properties of the component dispatcher *)

Section DispatcherCoverage.
Context {number Factory : Type}.
Variable numberToString : number -> string.
Variable Components : gmap string (ComponentConfig Factory).

Local Abbreviation Js := (JsValue number).
Local Abbreviation dispatch := (ComponentForField numberToString Components).

(** What an element made by one of the branches carries. *)
Lemma renderForPropsType_element (cfg : ComponentConfig Factory)
    (field : Field number) (value : Js) (readOnly : bool)
    (el : Element number Factory) :
  renderForPropsType cfg field value readOnly = Returned (Some el) ->
  boundValue (props el) = value
  /\ component el = factory cfg
  /\ recognizedPropsType (propsType cfg) = true
  /\ labelLine el
     = if negb (String.eqb (FormBuilder.type field) "boolean")
          && negb (String.eqb (FormBuilder.type field) "multiemail")
          && truthyString (label field)
       then Some (default "" (label field),
                  if negb readOnly && truthyBool (required field) then "*" else "")
       else None.
Proof.
  unfold renderForPropsType, recognizedPropsType. simpl.
  repeat (destruct (String.eqb (propsType cfg) _);
          [first
             [ intros [= <-]
             | destruct (options field); [|discriminate];
               first
                 [ intros [= <-]
                 | destruct (optionsInputs field); [|discriminate];
                   destruct (_ <? _)%Z; [intros [= <-]|discriminate] ] ];
           simpl; rewrite ?orb_true_r; done|]).
  done.
Qed.

(** The dispatcher returns only what its branches return. *)
Lemma dispatch_returned (field : Field number) (value : Js) (readOnly : bool)
    (r : option (Element number Factory)) :
  dispatch field value readOnly = Returned r ->
  exists cfg,
    Components !! FormBuilder.type field = Some cfg
    /\ valueAccepted value (propsType cfg) = true
    /\ renderForPropsType cfg field value readOnly = Returned r.
Proof.
  unfold ComponentForField, valueAccepted.
  destruct (Components !! FormBuilder.type field) as [cfg|]; [|done].
  intros Hd. exists cfg. split; [done|].
  destruct (isUndefined value); simpl in *; [done|].
  destruct (isValueOfPropsType value value (propsType cfg)) as [[]|]; done.
Qed.

(** X1: an element that the dispatcher returns is bound to the very value
    it was given and is made by the factory of the registry entry of the
    field's type; that entry has a recognized [propsType] and the value was
    absent or of its shape. *)
Theorem dispatch_element_is_faithful (field : Field number) (value : Js)
    (readOnly : bool) (el : Element number Factory) :
  dispatch field value readOnly = Returned (Some el) ->
  boundValue (props el) = value
  /\ exists cfg,
       Components !! FormBuilder.type field = Some cfg
       /\ component el = factory cfg
       /\ recognizedPropsType (propsType cfg) = true
       /\ valueAccepted value (propsType cfg) = true
       /\ (value = JUndefined \/ expectedShape (propsType cfg) value = Some true).
Proof.
  intros Hd. destruct (dispatch_returned _ _ _ _ Hd) as (cfg & Hc & Ha & Hr).
  destruct (renderForPropsType_element _ _ _ _ _ Hr) as (Hv & Hf & Hk & _).
  split; [done|]. exists cfg. repeat (split; [done|]).
  unfold valueAccepted in Ha. destruct value; simpl in Ha; auto; right;
    apply isValueOfPropsType_sound;
    destruct (isValueOfPropsType _ _ (propsType cfg)) as [[]|]; done.
Qed.

(** X2: the label line of a rendered element. A field of type boolean or
    multiemail, or without a label, gets none; the others get their label,
    with the marker "*" exactly when the field is required and the rendering
    is not read-only. *)
Theorem dispatch_label_line (field : Field number) (value : Js)
    (readOnly : bool) (el : Element number Factory) :
  dispatch field value readOnly = Returned (Some el) ->
  (FormBuilder.type field = "boolean" \/ FormBuilder.type field = "multiemail"
   \/ label field = None \/ label field = Some "" ->
   labelLine el = None)
  /\ (forall text,
        FormBuilder.type field <> "boolean" ->
        FormBuilder.type field <> "multiemail" ->
        label field = Some text -> text <> "" ->
        exists marker,
          labelLine el = Some (text, marker)
          /\ (marker = "*" <-> required field = Some true /\ readOnly = false)
          /\ (marker = "" \/ marker = "*")).
Proof.
  intros Hd. destruct (dispatch_returned _ _ _ _ Hd) as (cfg & _ & _ & Hr).
  destruct (renderForPropsType_element _ _ _ _ _ Hr) as (_ & _ & _ & ->).
  split.
  - intros [H | [H | [H | H]]]; rewrite H; simpl; by rewrite ?andb_false_r.
  - intros text Hb Hm Hl Hne. rewrite Hl.
    apply String.eqb_neq in Hb, Hm, Hne. rewrite Hb, Hm. simpl. rewrite Hne.
    simpl. eexists. split; [reflexivity|].
    destruct readOnly, (required field) as [[]|]; simpl; split;
      try split; try (intros [? ?]); try done; auto.
Qed.

(** X3: for the five [propsType] other than objectiveWithInput the check of
    the code is the shape of the contract, in both directions: it answers
    true exactly on a string (text, select), a boolean (boolean) or an array
    of strings, the empty array included (textList, multiselect). *)
Theorem isValueOfPropsType_exact (value : Js) (p : string) :
  recognizedPropsType p = true ->
  p <> "objectiveWithInput" ->
  (forall val : Js, exists b,
     isValueOfPropsType value val p = Returned b
     /\ expectedShape p val = Some b)
  /\ (p = "textList" \/ p = "multiselect" ->
      isValueOfPropsType value (JArr []) p = Returned true).
Proof.
  intros Hk Ho. apply String.eqb_neq in Ho.
  unfold recognizedPropsType in Hk. simpl in Hk. split.
  - intros val. unfold isValueOfPropsType, expectedShape.
    destruct (String.eqb p "text") eqn:Et; simpl.
    { eexists. split; [reflexivity|]. by destruct val. }
    destruct (String.eqb p "boolean") eqn:Eb; simpl.
    { apply String.eqb_eq in Eb as ->. simpl. eexists. split; [reflexivity|].
      by destruct val. }
    destruct (String.eqb p "textList") eqn:El; simpl.
    { apply String.eqb_eq in El as ->. simpl. eexists. split; [reflexivity|].
      destruct val; simpl; try done. by rewrite every_isString. }
    destruct (String.eqb p "select") eqn:Es; simpl.
    { eexists. split; [reflexivity|]. by destruct val. }
    destruct (String.eqb p "multiselect") eqn:Em; simpl.
    { eexists. split; [reflexivity|].
      destruct val; simpl; try done. by rewrite every_isString. }
    by rewrite Ho in Hk.
  - by intros [-> | ->].
Qed.

(** X4: the order of the failures. A field type without an entry in the
    registry is a TypeError whatever else holds; with an entry, a supplied
    value of the wrong shape is reported even when [options] is missing too;
    the missing [options] is reported only for a value that is absent or of
    the right shape. *)
Theorem dispatch_failure_order (field : Field number) (value : Js)
    (readOnly : bool) :
  (Components !! FormBuilder.type field = None ->
   dispatch field value readOnly
   = Threw (TypeError "Cannot read properties of undefined (reading 'propsType')"))
  /\ (forall cfg,
        Components !! FormBuilder.type field = Some cfg ->
        propsType cfg = "select" \/ propsType cfg = "multiselect"
        \/ propsType cfg = "objectiveWithInput" ->
        options field = None ->
        (valueAccepted value (propsType cfg) = false ->
         dispatch field value readOnly
         = Threw (Error (invalidValueMessage numberToString value (propsType cfg)
                           (name field))))
        /\ (valueAccepted value (propsType cfg) = true ->
            dispatch field value readOnly
            = Threw (Error "Field options is not defined"))).
Proof.
  split.
  - intros Hc. unfold ComponentForField. by rewrite Hc.
  - intros cfg Hc Hp Ho.
    assert (Hk : recognizedPropsType (propsType cfg) = true).
    { by destruct Hp as [-> | [-> | ->]]. }
    split.
    + intros Ha. unfold valueAccepted in Ha.
      apply orb_false_iff in Ha as [Hu Hv].
      destruct (isValueOfPropsType_known value value _ Hk) as [b Hb].
      rewrite Hb in Hv. subst b.
      apply dispatch_invalid; [done| |done]. intros ->. discriminate.
    + intros Ha. rewrite (dispatch_accepted _ _ _ _ _ _ Hc Ha).
      unfold renderForPropsType.
      destruct Hp as [-> | [-> | ->]]; simpl; by rewrite Ho.
Qed.

(** X5: the dispatcher returns null in one case only: the field's type
    resolves to the objectiveWithInput contract, [options] is the empty list,
    [optionsInputs] is defined, and the value is absent or passed the
    check. *)
Theorem dispatch_null_iff (field : Field number) (value : Js)
    (readOnly : bool) :
  dispatch field value readOnly = Returned None
  <-> exists cfg inputs,
        Components !! FormBuilder.type field = Some cfg
        /\ propsType cfg = "objectiveWithInput"
        /\ options field = Some []
        /\ optionsInputs field = Some inputs
        /\ valueAccepted value (propsType cfg) = true.
Proof.
  split.
  - intros Hd. destruct (dispatch_returned _ _ _ _ Hd) as (cfg & Hc & Ha & Hr).
    exists cfg. unfold renderForPropsType in Hr.
    do 5 (destruct (String.eqb (propsType cfg) _);
          [first [discriminate | destruct (options field); discriminate]|]).
    destruct (String.eqb (propsType cfg) "objectiveWithInput") eqn:Ep;
      [|discriminate].
    apply String.eqb_eq in Ep.
    destruct (options field) as [opts|]; [|discriminate].
    destruct (optionsInputs field) as [inputs|]; [|discriminate].
    destruct opts as [|o opts]; [|discriminate].
    by exists inputs.
  - intros (cfg & inputs & Hc & Hp & Ho & Hi & Ha).
    rewrite (dispatch_accepted _ _ _ _ _ _ Hc Ha).
    unfold renderForPropsType. by rewrite Hp, Ho, Hi.
Qed.

End DispatcherCoverage.

(** * Further properties of the schema collection editor *)

Section EditorCoverage.
Context {number : Type}.

Local Abbreviation Fld := (Field number).

(** X6: which controls a row has. The two arrows are on every row; Edit is
    there unless the entry is "user-readonly"; the hidden switch is there
    unless the entry is "user-readonly" or "system", and shows the negation
    of [hidden]; Delete is there unless the entry is "user-readonly",
    "system" or "system-but-optional". *)
Theorem rowControls_offered (field : Fld) :
  (ArrowUp ∈ rowControls field /\ ArrowDown ∈ rowControls field)
  /\ (EditButton ∈ rowControls field <-> editable field <> Some user_readonly)
  /\ ((exists b, HiddenSwitch b ∈ rowControls field)
      <-> editable field <> Some user_readonly /\ editable field <> Some system)
  /\ (forall b, HiddenSwitch b ∈ rowControls field -> b = switchChecked field)
  /\ (DeleteButton ∈ rowControls field
      <-> editable field <> Some user_readonly
          /\ editable field <> Some system
          /\ editable field <> Some system_but_optional).
Proof.
  unfold rowControls, isEditable.
  destruct (editable field) as [[]|]; simpl;
    (split; [split; rewrite !elem_of_cons; auto|]);
    (split; [rewrite !elem_of_cons, elem_of_nil;
             intuition (discriminate || congruence)|]);
    (split; [split;
             [ intros [b Hb]; revert Hb; rewrite !elem_of_cons, elem_of_nil;
               intuition (discriminate || congruence)
             | intros [H1 H2]; try congruence; eexists;
               rewrite !elem_of_cons; eauto ]|]);
    (split; [intros b; rewrite !elem_of_cons, elem_of_nil;
             intuition (discriminate || congruence)|]);
    rewrite !elem_of_cons, elem_of_nil;
    intuition (discriminate || congruence).
Qed.

Lemma insert_swap_Permutation {A : Type} (l : list A) (j : nat) (a b : A) :
  l !! j = Some b -> b :: <[j := a]> l ≡ₚ a :: l.
Proof.
  revert j. induction l as [|y l IH]; intros [|j] Hj; simpl in *; try done.
  - injection Hj as ->. apply perm_swap.
  - rewrite perm_swap, (IH j Hj). apply perm_swap.
Qed.

Lemma insert_insert_Permutation {A : Type} (l : list A) (i j : nat) (a b : A) :
  l !! i = Some a -> l !! j = Some b ->
  <[i := b]> (<[j := a]> l) ≡ₚ l.
Proof.
  revert i j. induction l as [|x l IH]; intros [|i] [|j] Hi Hj; simpl in *;
    try done.
  - by injection Hj as ->.
  - injection Hi as ->. by apply insert_swap_Permutation.
  - injection Hj as ->. by apply insert_swap_Permutation.
  - f_equiv. by apply IH.
Qed.

Lemma swap_Some (l l' : list Fld) (i j : Z) :
  swap i j l = Some l' ->
  exists a b,
    (0 <= i)%Z /\ (0 <= j)%Z
    /\ l !! Z.to_nat i = Some a /\ l !! Z.to_nat j = Some b
    /\ l' = <[Z.to_nat i := b]> (<[Z.to_nat j := a]> l).
Proof.
  unfold swap, lookupZ.
  destruct (Z.ltb_spec i 0); [done|]. destruct (Z.ltb_spec j 0).
  { by destruct (l !! Z.to_nat i). }
  destruct (l !! Z.to_nat i) as [a|] eqn:Ha; [|done].
  destruct (l !! Z.to_nat j) as [b|] eqn:Hb; [|done].
  intros [= <-]. by exists a, b.
Qed.

(** X7: whenever [swap] has a result, the result holds the same entries as
    before, each as often as before, and is as long; and exchanging [j] with
    [i] gives the same collection as exchanging [i] with [j], so that moving a
    row down is moving the next row up. *)
Theorem swap_permutes (l l' : list Fld) (i j : Z) :
  swap i j l = Some l' ->
  l' ≡ₚ l /\ length l' = length l /\ swap j i l = Some l'.
Proof.
  intros Hs. destruct (swap_Some _ _ _ _ Hs) as (a & b & Hi & Hj & Ha & Hb & ->).
  split; [by apply insert_insert_Permutation|].
  split; [by rewrite !length_insert|].
  unfold swap, lookupZ.
  destruct (Z.ltb_spec i 0); [lia|]. destruct (Z.ltb_spec j 0); [lia|].
  rewrite Ha, Hb. f_equal.
  destruct (decide (Z.to_nat i = Z.to_nat j)) as [Heq|Hne].
  - rewrite Heq in *. congruence.
  - by rewrite list_insert_insert_ne.
Qed.

(** X8: the arrows at the ends. On the rows of the collection, Up has no
    result on the first row only and Down on the last row only: the handlers
    call [swap] with an index outside the collection there, and nothing guards
    them. *)
Theorem arrows_at_the_ends (st : State number) (field : Fld) (i : nat) :
  i < length (fields st) ->
  (click (Z.of_nat i) field ArrowUp st = None <-> i = 0)
  /\ (click (Z.of_nat i) field ArrowDown st = None <-> S i = length (fields st)).
Proof.
  intros Hi. destruct (lookup_lt_is_Some_2 _ _ Hi) as [a Ha].
  unfold click, swap. rewrite lookupZ_of_nat, Ha. split.
  - destruct i as [|i].
    + by simpl.
    + replace (Z.of_nat (S i) - 1)%Z with (Z.of_nat i) by lia.
      rewrite lookupZ_of_nat.
      destruct (lookup_lt_is_Some_2 (fields st) i) as [b ->]; [lia|].
      by simpl.
  - replace (Z.of_nat i + 1)%Z with (Z.of_nat (S i)) by lia.
    rewrite lookupZ_of_nat.
    destruct (fields st !! S i) as [b|] eqn:Hb; simpl.
    + apply lookup_lt_Some in Hb. split; [done|lia].
    + apply lookup_ge_None in Hb. split; [lia|done].
Qed.


(** X10: a row of the list. An entry whose type is none of the thirteen of
    the table [FieldTypes] makes the rendering throw "Invalid field type";
    every other entry has a row, on which a hidden entry is never shown as
    required: the badge says "Required" exactly when the entry is required
    and not hidden. *)
Theorem renderRow_required_and_type (field : Fld) :
  (FormBuilder.type field
     ∈ ["name"; "email"; "phone"; "text"; "number"; "textarea"; "select";
        "multiselect"; "multiemail"; "radioInput"; "checkbox"; "radio";
        "boolean"] ->
   exists row,
     renderRow field = Returned row
     /\ (isRequired row = true
         <-> required field = Some true /\ hidden field <> Some true)
     /\ (hidden field = Some true ->
         isRequired row = false /\ hiddenBadge row = true)
     /\ controls row = rowControls field)
  /\ (FormBuilder.type field
        ∉ ["name"; "email"; "phone"; "text"; "number"; "textarea"; "select";
           "multiselect"; "multiemail"; "radioInput"; "checkbox"; "radio";
           "boolean"] ->
      renderRow field
      = Threw (Error ("Invalid field type - " +:+ FormBuilder.type field))).
Proof.
  split.
  - intros Hin. unfold renderRow.
    assert (Hf : exists ft, findFieldType (Some (FormBuilder.type field)) = Some ft).
    { rewrite !elem_of_cons, elem_of_nil in Hin.
      repeat (destruct Hin as [-> | Hin]; [by eexists|]). done. }
    destruct Hf as [ft ->]. eexists. split; [reflexivity|]. simpl.
    split; [|split; [|done]].
    + destruct (required field) as [[]|], (hidden field) as [[]|]; simpl;
        split; try done; try (by intros [? ?]).
    + intros ->. simpl. by rewrite andb_false_r.
  - intros Hnot. unfold renderRow, findFieldType, FieldTypes.
    cbn [List.find ft_value].
    rewrite !not_elem_of_cons in Hnot.
    repeat (destruct Hnot as [Hne Hnot];
            apply not_eq_sym, String.eqb_neq in Hne; rewrite Hne; clear Hne).
    done.
Qed.

Lemma setHidden_same (field : Fld) (b : bool) :
  hidden field = Some b -> setHidden field b = field.
Proof. destruct field; simpl. by intros ->. Qed.

(** X11: flipping the hidden switch of a row twice gives the entry back,
    except that a [hidden] that was undefined is false afterwards; when
    [hidden] was defined the whole state is as before. *)
Theorem toggleHidden_twice (st : State number) (i : nat) (field : Fld) :
  fields st !! i = Some field ->
  exists st1 field1 st2,
    toggleHidden (Z.of_nat i) field st = Some st1
    /\ fields st1 !! i = Some field1
    /\ toggleHidden (Z.of_nat i) field1 st1 = Some st2
    /\ fields st2
       = <[i := setHidden field (truthyBool (hidden field))]> (fields st)
    /\ (hidden field <> None -> st2 = st).
Proof.
  intros Hf. pose proof (lookup_lt_Some _ _ _ Hf) as Hi.
  unfold toggleHidden, onCheckedChange.
  rewrite update_in_range by done. simpl.
  eexists _, _, _. split; [reflexivity|]. simpl.
  split; [by apply list_lookup_insert_eq|].
  rewrite update_in_range by (by rewrite length_insert). simpl.
  split; [reflexivity|]. simpl. rewrite list_insert_insert_eq.
  unfold switchChecked. simpl. rewrite !negb_involutive.
  assert (Hss : forall a b, setHidden (setHidden field a) b = setHidden field b)
    by done.
  rewrite Hss. split; [done|]. intros Hh.
  destruct (hidden field) as [b|] eqn:Hb; [|done].
  change (truthyBool (Some b)) with b.
  rewrite (setHidden_same field b Hb), (list_insert_id _ _ _ Hf).
  by destruct st.
Qed.

(** X12: which entry a submit of the dialog writes. After [editField] on an
    index of the collection the submit replaces that entry and no other;
    after [addField], and after any [onOpenChange] of the dialog (closing it
    forgets the index), the submit appends, whatever index was bound before.
    Opening and closing the dialog never change the collection. *)
Theorem dialog_submit_target (st : State number) (data : Fld) :
  (forall (i : nat) (field : Fld),
     i < length (fields st) ->
     exists st',
       handleSubmit data (editField (Z.of_nat i) field st) = Some st'
       /\ fields st' = <[i := data]> (fields st)
       /\ isOpen (fieldDialog st') = false)
  /\ (forall st0,
        st0 = addField st \/ (exists b, st0 = onOpenChange b st) ->
        fields st0 = fields st
        /\ exists st' created,
             handleSubmit data st0 = Some st'
             /\ fields st' = fields st ++ [created]
             /\ name created = name data
             /\ isOpen (fieldDialog st') = false)
  /\ (forall i field, fields (editField i field st) = fields st).
Proof.
  split; [|split; [|done]].
  - intros i field Hi. unfold handleSubmit, editField. simpl.
    destruct (Z.eqb_spec (Z.of_nat i) (-1)); [lia|]. simpl.
    rewrite update_in_range by done. simpl. by eexists.
  - intros st0 [-> | [b ->]]; (split; [done|]);
      unfold handleSubmit; simpl; by eexists _, _.
Qed.

(** X13: the entry that a submit in create mode appends keeps the
    [editable] of the draft when it has one; when it has none the entry is a
    "user" entry, whose row has every control: the arrows, the hidden switch,
    Edit and Delete. *)
Theorem created_entry_controls (st : State number) (data : Fld) :
  fieldIndex (fieldDialog st) = (-1)%Z ->
  exists st' created,
    handleSubmit data st = Some st'
    /\ last (fields st') = Some created
    /\ (forall e, editable data = Some e -> editable created = Some e)
    /\ (editable data = None ->
        editable created = Some FormBuilder.user
        /\ rowControls created
           = [ArrowUp; ArrowDown; HiddenSwitch (switchChecked data);
              EditButton; DeleteButton]).
Proof.
  intros Hi. unfold handleSubmit. rewrite Hi. simpl.
  eexists _, _. split; [reflexivity|]. simpl. unfold append.
  split; [apply last_snoc|]. simpl.
  split; [by intros e ->|]. intros ->. by simpl.
Qed.

End EditorCoverage.

(** * Properties of the options editor *)

Section OptionsCoverage.
Variable toLowerCase : string -> string.
Variable trim : string -> string.

Local Abbreviation step := (optionsStep toLowerCase trim).
Local Abbreviation run := (optionsRun toLowerCase trim).

Lemma splice1_replace {A : Type} (l : list A) (i : nat) (x : A) :
  i < length l -> splice1 i [x] l = <[i := x]> l.
Proof. intros Hi. unfold splice1. by rewrite insert_take_drop. Qed.

Lemma splice1_remove {A : Type} (l : list A) (i : nat) :
  splice1 i [] l = delete i l.
Proof. unfold splice1. by rewrite delete_take_drop. Qed.

(** X14: editing the label of the option at an index of the list gives a
    list of the same length in which that option has the text as label and
    the lower-cased, then trimmed text as value, and every other option is
    as before. *)
Theorem onLabelChange_changes_one (value : list FieldOption) (index : nat)
    (text : string) :
  index < length value ->
  length (onLabelChange toLowerCase trim index text value) = length value
  /\ onLabelChange toLowerCase trim index text value !! index
     = Some {| opt_label := text; opt_value := trim (toLowerCase text) |}
  /\ forall j, j <> index ->
       onLabelChange toLowerCase trim index text value !! j = value !! j.
Proof.
  intros Hi. unfold onLabelChange. rewrite splice1_replace by done.
  split; [by rewrite length_insert|].
  split; [by apply list_lookup_insert_eq|].
  intros j Hj. by apply list_lookup_insert_ne.
Qed.

Lemma optionsStep_length (readOnly : bool) value e value' :
  step readOnly value e = Some value' ->
  (2 <= length (optionsOrDefault value) ->
   2 <= length (optionsOrDefault value'))
  /\ (readOnly = true ->
      length (optionsOrDefault value') = length (optionsOrDefault value)).
Proof.
  unfold optionsStep. destruct e as [index text|index|].
  - destruct (Nat.ltb_spec index (length (optionsOrDefault value)));
      [|done]. intros [= <-]. simpl.
    unfold onLabelChange. rewrite splice1_replace, length_insert by done.
    done.
  - destruct (Nat.ltb_spec index (length (optionsOrDefault value)));
      [|done]. simpl.
    destruct (Nat.ltb_spec 2 (length (optionsOrDefault value))); [|done].
    destruct readOnly; [done|]. simpl. intros [= <-]. simpl.
    unfold onRemoveClick. rewrite splice1_remove.
    rewrite length_delete by (by apply lookup_lt_is_Some_2).
    split; [lia|done].
  - destruct readOnly; [done|]. simpl. intros [= <-]. simpl.
    unfold onAddClick. rewrite length_app. simpl. split; [lia|done].
Qed.

(** X15: the floor of two options. Whatever the user does on the editor,
    starting from no value (the two default options) or from a list of at
    least two options, the list never has fewer than two options; and a
    read-only editor never changes the number of options. *)
Theorem options_never_below_two (readOnly : bool) (events : list OptionsEvent)
    (value value' : option (list FieldOption)) :
  run readOnly events value = Some value' ->
  (2 <= length (optionsOrDefault value) ->
   2 <= length (optionsOrDefault value'))
  /\ (value = None -> 2 <= length (optionsOrDefault value'))
  /\ (readOnly = true ->
      length (optionsOrDefault value') = length (optionsOrDefault value)).
Proof.
  revert value. induction events as [|e events IH]; intros value; simpl.
  - intros [= <-]. split; [done|]. split; [by intros ->|done].
  - destruct (step readOnly value e) as [value1|] eqn:Hs; [|done].
    intros Hr. destruct (optionsStep_length _ _ _ _ Hs) as [H2 Hro].
    destruct (IH _ Hr) as (IH2 & _ & IHro).
    split; [auto|]. split.
    + intros ->. apply IH2, H2. simpl. lia.
    + intros Ht. by rewrite IHro, Hro.
Qed.

End OptionsCoverage.

(** * Properties of the field renderer *)

Section FieldRendererCoverage.
Context {number : Type}.

Lemma append_cons (c : ascii) (s t : string) :
  String c s +:+ t = String c (s +:+ t).
Proof. reflexivity. Qed.

Lemma append_nil_r (s : string) : s +:+ "" = s.
Proof.
  induction s as [|c s IH]; [done|]. rewrite append_cons. by f_equal.
Qed.

Lemma append_cancel_l (s r : string) : s +:+ r = s -> r = "".
Proof.
  induction s as [|c s IH]; [done|]. rewrite append_cons.
  intros [= H]. by apply IH.
Qed.

Lemma spanNotClosingBrace_app (n t : string) :
  allChars notClosingBrace n = true ->
  spanNotClosingBrace (n +:+ String "}" t) = (n, String "}" t).
Proof.
  induction n as [|c n IH]; [done|].
  rewrite append_cons. cbn [allChars spanNotClosingBrace].
  unfold notClosingBrace at 1. intros [Hc Hn]%andb_true_iff.
  apply negb_true_iff in Hc. by rewrite Hc, (IH Hn).
Qed.

Lemma splitLine_append (s : string) :
  fst (splitLine s) +:+ snd (splitLine s) = s.
Proof.
  induction s as [|c s IH]; [done|].
  cbn [splitLine]. destruct (startsWithLineTerminator (String c s)); [done|].
  destruct (splitLine s) as [a b]. simpl in *. by rewrite append_cons, IH.
Qed.

Lemma splitLine_singleLine (s : string) :
  singleLine s = true <-> snd (splitLine s) = "".
Proof.
  induction s as [|c s IH]; [done|].
  cbn [splitLine singleLine].
  destruct (startsWithLineTerminator (String c s)); simpl; [done|].
  destruct (splitLine s) as [a b]. simpl in *. done.
Qed.

Lemma firstBracedMatch_braced (n text : string) :
  n <> "" ->
  allChars notClosingBrace n = true ->
  firstBracedMatch (String "{" (n +:+ String "}" text))
  = Some ("", (n, fst (splitLine text), snd (splitLine text))).
Proof.
  intros Hne Hn.
  assert (Hm : matchBracedAt (String "{" (n +:+ String "}" text))
               = Some (n, fst (splitLine text), snd (splitLine text))).
  { unfold matchBracedAt. rewrite Ascii.eqb_refl.
    rewrite (spanNotClosingBrace_app n text Hn).
    destruct n as [|g gs]; [done|]. by destruct (splitLine text). }
  destruct n as [|g gs]; [done|].
  change (firstBracedMatch (String "{" (String g gs +:+ String "}" text)))
    with (match matchBracedAt (String "{" (String g gs +:+ String "}" text)) with
          | Some m => Some ("", m)
          | None =>
              match firstBracedMatch (String g gs +:+ String "}" text) with
              | Some (before, m) => Some (String "{" before, m)
              | None => None
              end
          end).
  by rewrite Hm.
Qed.

Lemma firstBracedMatch_none (m : string) :
  allChars notOpeningBrace m = true -> firstBracedMatch m = None.
Proof.
  induction m as [|c m IH]; [done|].
  cbn [allChars]. unfold notOpeningBrace at 1.
  intros [Hc Hm]%andb_true_iff. apply negb_true_iff in Hc.
  cbn [firstBracedMatch]. unfold matchBracedAt. rewrite Hc.
  by rewrite (IH Hm).
Qed.

(** X16: the route of an error message that starts with the name of a field
    in braces. For a name that is not empty and has no closing brace, and a
    text on one line, the message "{name}text" gives "name" as the field it
    belongs to and "text" as what is shown: the field of that name shows the
    text (and writes one line with [console.error] when it is hidden), every
    other field shows nothing. *)
Theorem braced_message_is_routed (field : Field number) (n text : string) :
  n <> "" ->
  allChars notClosingBrace n = true ->
  singleLine text = true ->
  replaceWithName (String "{" (n +:+ String "}" text)) = n
  /\ replaceWithText (String "{" (n +:+ String "}" text)) = text
  /\ (name field = n ->
      renderErrorMessage field (Some (String "{" (n +:+ String "}" text)))
      = (Some text,
         if truthyBool (hidden field)
         then ["Error message for hidden field:" +:+ n +:+ " => " +:+ text]
         else []))
  /\ (name field <> n ->
      renderErrorMessage field (Some (String "{" (n +:+ String "}" text)))
      = (None, [])).
Proof.
  intros Hne Hn Hl. apply splitLine_singleLine in Hl.
  pose proof (splitLine_append text) as Happ. rewrite Hl, append_nil_r in Happ.
  assert (Hname : replaceWithName (String "{" (n +:+ String "}" text)) = n).
  { unfold replaceWithName. rewrite (firstBracedMatch_braced n text Hne Hn).
    rewrite Hl. simpl. apply append_nil_r. }
  assert (Htext : replaceWithText (String "{" (n +:+ String "}" text)) = text).
  { unfold replaceWithText. rewrite (firstBracedMatch_braced n text Hne Hn).
    rewrite Hl. simpl. by rewrite append_nil_r. }
  split; [done|]. split; [done|]. unfold renderErrorMessage.
  rewrite Hname, Htext. split.
  - intros ->. by rewrite String.eqb_refl.
  - intros Hd. apply not_eq_sym, String.eqb_neq in Hd. by rewrite Hd.
Qed.

(** X17: a text that goes over several lines is lost. The pattern stops at
    the first line terminator, so for "{name}text" with such a text the
    field computed from the message is the name followed by the rest of the
    text from the terminator on, and the field called "name" shows
    nothing. *)
Theorem multiline_message_is_dropped (field : Field number) (n text : string) :
  n <> "" ->
  allChars notClosingBrace n = true ->
  singleLine text = false ->
  replaceWithName (String "{" (n +:+ String "}" text))
  = n +:+ snd (splitLine text)
  /\ replaceWithName (String "{" (n +:+ String "}" text)) <> n
  /\ (name field = n ->
      renderErrorMessage field (Some (String "{" (n +:+ String "}" text)))
      = (None, [])).
Proof.
  intros Hne Hn Hl.
  assert (Hname : replaceWithName (String "{" (n +:+ String "}" text))
                  = n +:+ snd (splitLine text)).
  { unfold replaceWithName. by rewrite (firstBracedMatch_braced n text Hne Hn). }
  assert (Hdiff : n +:+ snd (splitLine text) <> n).
  { intros Heq. apply append_cancel_l in Heq.
    apply splitLine_singleLine in Heq. congruence. }
  split; [done|]. split; [by rewrite Hname|].
  intros Hf. unfold renderErrorMessage. rewrite Hname, Hf.
  apply String.eqb_neq in Hdiff. by rewrite Hdiff.
Qed.

(** X18: a message without an opening brace names no field: it is shown,
    in full, under a field whose name is the whole message and under no
    other; an error without message, and no error at all, show nothing and
    log nothing under every field. *)
Theorem unbraced_message (field : Field number) (m : string) :
  (allChars notOpeningBrace m = true ->
   replaceWithName m = m
   /\ (name field <> m -> renderErrorMessage field (Some m) = (None, []))
   /\ (name field = m -> fst (renderErrorMessage field (Some m)) = Some m))
  /\ renderErrorMessage field None = (None, []).
Proof.
  split; [|done]. intros Hm.
  assert (Hn : replaceWithName m = m).
  { unfold replaceWithName. by rewrite (firstBracedMatch_none m Hm). }
  assert (Ht : replaceWithText m = m).
  { unfold replaceWithText. by rewrite (firstBracedMatch_none m Hm). }
  split; [done|]. unfold renderErrorMessage. rewrite Hn, Ht. split.
  - intros Hd. apply not_eq_sym, String.eqb_neq in Hd. by rewrite Hd.
  - intros ->. by rewrite String.eqb_refl.
Qed.

End FieldRendererCoverage.

(** * Further properties of the request guard chain *)

Section GuardCoverage.
Context {number : Type} `{EqDecision number} {Session Data : Type}.
Variable toNumber : JsValue number -> number.
Variable isNaN : number -> bool.
Variable numberToString : number -> string.
Variable rateLimit_check : number -> number -> string -> bool.
Variable memberships : list (Membership number).
Variable handler : Context number Session -> JsValue number -> TRPCError + Data.
Variables (input : JsValue number) (callPath callType : string).

Local Abbreviation call := (callProcedure handler input callPath callType).
Local Abbreviation teamProcedure :=
  (userBelongsToTeamProcedure (Session := Session) (Data := Data)
     toNumber isNaN memberships).
Local Abbreviation rateLimitedProcedure :=
  (authedRateLimitedProcedure (Session := Session) (Data := Data)
     numberToString rateLimit_check).

(** Whatever a stage throws, the run of the stages ends in a result. *)
Lemma callRecursive_returns (middlewares : list Middleware)
    (c : Context number Session) tr :
  exists r tr',
    callRecursive handler input callPath callType middlewares c tr = (inr r, tr').
Proof.
  destruct middlewares as [|m rest]; simpl; unfold tryCatch, ret.
  - destruct (resolveMiddleware handler input c tr) as [[e|r] tr']; eauto.
  - match goal with
    | |- context [m ?opts tr] => destruct (m opts tr) as [[e|r] tr']
    end; eauto.
Qed.

(** X19: the instrumentation stage never turns a request away and always
    completes: for every list of later stages, also one in which a stage
    throws, the answer of the procedure is the one of the later stages, and
    the trace ends with the mark "End" and the measurement, whose name says
    OK exactly when the answer is not an error. *)
Theorem perfMiddleware_always_completes (rest : list Middleware)
    (c : Context number Session) :
  exists r tr answer,
    callRecursive handler input callPath callType rest c [PerformanceMark "Start"]
    = (inr r, tr)
    /\ answer = match r with ResultOk data => inr data | ResultError e => inl e end
    /\ call (perfMiddleware :: rest) c
       = (answer,
          tr ++ [ PerformanceMark "End";
                  PerformanceMeasure (measureName (isOk answer) callType callPath)
                    "Start" "End" ]).
Proof.
  destruct (callRecursive_returns rest c [PerformanceMark "Start"])
    as (r & tr & Hr).
  exists r, tr. eexists. split; [done|]. split; [reflexivity|].
  rewrite (call_perf handler input callPath callType rest c r tr Hr).
  by destruct r.
Qed.

(** X20: the rate limit. For an authenticated request to a rate-limited
    procedure, an answer "limited" of the limiter (asked with the interval,
    the limit and the user's id as a string) is answered TOO_MANY_REQUESTS
    and the handler does not run; otherwise the handler runs on the unchanged
    context and its result is the answer. *)
Theorem rate_limit_guard (o : IRateLimitOptions) (c : Context number Session)
    u s :
  user c = Some u -> session c = Some s ->
  (rateLimit_check (intervalInMs o) (limit o) (numberToString (id u)) = true ->
   call (rateLimitedProcedure o) c
   = (inl {| code := TOO_MANY_REQUESTS |}, rejectedTrace callPath callType))
  /\ (rateLimit_check (intervalInMs o) (limit o) (numberToString (id u)) = false ->
      call (rateLimitedProcedure o) c
      = (handler c input,
         [ PerformanceMark "Start"; ResolverCalled c input;
           PerformanceMark "End";
           PerformanceMeasure
             (measureName (isOk (handler c input)) callType callPath)
             "Start" "End" ])).
Proof.
  intros Hu Hs.
  unfold authedRateLimitedProcedure, use, t_procedure. simpl. split.
  - intros Hl.
    rewrite (call_perf handler input callPath callType _ c
               (ResultError {| code := TOO_MANY_REQUESTS |})
               [PerformanceMark "Start"]); [done|].
    rewrite (isAuthed_passes handler input callPath callType c u s _ _ Hu Hs).
    simpl. unfold tryCatch, isRateLimitedByUserIdMiddleware. simpl.
    by rewrite Hu, Hl.
  - intros Hl. erewrite call_perf.
    2:{ rewrite (isAuthed_passes handler input callPath callType c u s _ _ Hu Hs).
        simpl. unfold tryCatch at 1. unfold isRateLimitedByUserIdMiddleware.
        simpl. rewrite Hu, Hl. unfold mergeContext. simpl. rewrite Hs.
        rewrite (context_eta c u s Hu Hs).
        rewrite (resolver_runs handler input c). reflexivity. }
    simpl. by destruct (handler c input).
Qed.

(** X21: a team procedure called without a team. When the input is an
    object whose [teamId] is absent or undefined, the query does not filter on
    the team: an authenticated user who has a membership row of any team gets
    the handler run, and one who has no row at all is answered
    UNAUTHORIZED. *)
Theorem team_guard_without_teamId (c : Context number Session) u s props :
  user c = Some u -> session c = Some s ->
  input = JObj props ->
  getProperty "teamId" props = None
  \/ getProperty "teamId" props = Some JUndefined ->
  (forall m, m ∈ memberships -> userId m = id u ->
     call teamProcedure c
     = (handler c input,
        [ PerformanceMark "Start"; MembershipFindFirst (id u) None;
          ResolverCalled c input; PerformanceMark "End";
          PerformanceMeasure
            (measureName (isOk (handler c input)) callType callPath)
            "Start" "End" ]))
  /\ ((forall m, m ∈ memberships -> userId m <> id u) ->
      call teamProcedure c
      = (inl {| code := UNAUTHORIZED |},
         [ PerformanceMark "Start"; MembershipFindFirst (id u) None;
           PerformanceMark "End";
           PerformanceMeasure (measureName false callType callPath)
             "Start" "End" ])).
Proof.
  intros Hu Hs Hin Hteam.
  assert (Hp : UserBelongsToTeamInput_safeParse toNumber isNaN input = Some None).
  { rewrite Hin. simpl. by destruct Hteam as [-> | ->]. }
  unfold userBelongsToTeamProcedure, use, t_procedure. simpl. split.
  - intros m Hm Hmu. erewrite call_perf.
    2:{ rewrite (isAuthed_passes handler input callPath callType c u s _ _ Hu Hs).
        simpl. unfold tryCatch at 1. unfold userBelongsToTeamMiddleware.
        simpl. rewrite Hu, Hs, Hp.
        unfold bind, membership_findFirst, bind, emit, ret. simpl.
        edestruct (find_is_Some
                     (fun m0 : Membership number =>
                        bool_decide (userId m0 = id u) && true)
                     memberships m Hm) as [y ->].
        { by rewrite bool_decide_eq_true_2. }
        rewrite (resolver_runs handler input c). reflexivity. }
    simpl. by destruct (handler c input).
  - intros Hnone.
    rewrite (call_perf handler input callPath callType _ c
               (ResultError {| code := UNAUTHORIZED |})
               [PerformanceMark "Start"; MembershipFindFirst (id u) None]);
      [done|].
    rewrite (isAuthed_passes handler input callPath callType c u s _ _ Hu Hs).
    simpl. unfold tryCatch, userBelongsToTeamMiddleware. simpl.
    rewrite Hu, Hs, Hp. unfold bind, membership_findFirst, bind, emit, ret.
    simpl. rewrite find_is_None; [done|].
    intros m Hm. rewrite andb_true_r. apply bool_decide_eq_false. by apply Hnone.
Qed.

(** X22: an input that is not an object. For an authenticated request to
    the team procedure, a raw input that is undefined, null, a boolean, a
    number, a string or an array is answered BAD_REQUEST before any query,
    although [teamId] itself is optional. *)
Theorem team_guard_input_must_be_object (c : Context number Session) u s :
  user c = Some u -> session c = Some s ->
  (forall props, input <> JObj props) ->
  UserBelongsToTeamInput_safeParse toNumber isNaN input = None
  /\ call teamProcedure c
     = (inl {| code := BAD_REQUEST |}, rejectedTrace callPath callType).
Proof.
  intros Hu Hs Hno.
  assert (Hp : UserBelongsToTeamInput_safeParse toNumber isNaN input = None).
  { destruct input as [| | | | | |ps]; try done. by destruct (Hno ps). }
  split; [done|].
  unfold userBelongsToTeamProcedure, use, t_procedure. simpl.
  rewrite (call_perf handler input callPath callType _ c
             (ResultError {| code := BAD_REQUEST |})
             [PerformanceMark "Start"]); [done|].
  rewrite (isAuthed_passes handler input callPath callType c u s _ _ Hu Hs).
  simpl. unfold tryCatch, userBelongsToTeamMiddleware. simpl.
  by rewrite Hu, Hs, Hp.
Qed.

End GuardCoverage.

Section FieldViewCoverage.
Context {number Factory : Type}.
Variable numberToString : number -> string.
Variable Components : gmap string (ComponentConfig Factory).

Local Abbreviation view := (FormBuilderField numberToString Components).

(** X23: hiding a field takes nothing out of what is rendered for it. With
    [hidden] set to any value, [FormBuilderField] gives the same component
    (the outcome of the dispatcher on the bound value), the same bound name
    "responses.<name>" and the same error line; only the class "hidden" of the
    wrapper follows [hidden], and a line is written with [console.error]
    exactly when the field is hidden and shows an error. *)
Theorem hidden_field_is_still_rendered (field : Field number) (h : bool)
    (readOnly : bool) (value : JsValue number) (errors : option (option string)) :
  fieldComponent (view (setHidden field h) readOnly value errors)
  = ComponentForField numberToString Components field value readOnly
  /\ fieldComponent (view (setHidden field h) readOnly value errors)
     = fieldComponent (view field readOnly value errors)
  /\ controllerName (view (setHidden field h) readOnly value errors)
     = "responses." +:+ name field
  /\ errorLine (view (setHidden field h) readOnly value errors)
     = errorLine (view field readOnly value errors)
  /\ hiddenClass (view (setHidden field h) readOnly value errors) = h
  /\ (consoleErrors (view (setHidden field h) readOnly value errors) <> []
      <-> h = true
          /\ errorLine (view (setHidden field h) readOnly value errors) <> None).
Proof.
  unfold FormBuilderField, renderErrorMessage. simpl.
  split; [done|]. split; [done|]. split; [done|].
  split; [by destruct errors as [[m|]|]; simpl; repeat case_match|].
  split; [done|].
  destruct errors as [[m|]|]; simpl;
    [destruct (negb (String.eqb (replaceWithName m) (name field)))|..];
    destruct h; simpl; split; try done; by intros [? ?].
Qed.

End FieldViewCoverage.

(** * The further properties on concrete inputs *)

Section CoverageEvaluation.

Local Abbreviation dispatchSample :=
  (ComponentForField sampleNumberToString Components_spec).

Lemma dispatch_element_is_faithful_witness :
  dispatchSample (sampleField "text" None None) (JStr "hello") false
  = Returned (Some (WithLabel (sampleField "text" None None) false "text"
                      (TextProps None (Some "Question") false "question"
                         (JStr "hello"))))
  /\ boundValue (TextProps (number := SampleNumber) None (Some "Question") false
                   "question" (JStr "hello")) = JStr "hello".
Proof.
  assert (Hd : dispatchSample (sampleField "text" None None) (JStr "hello") false
               = Returned (Some (WithLabel (sampleField "text" None None) false
                                   "text"
                                   (TextProps None (Some "Question") false
                                      "question" (JStr "hello")))))
    by (vm_compute; reflexivity).
  split; [exact Hd|].
  exact (proj1 (dispatch_element_is_faithful sampleNumberToString Components_spec
                  _ _ _ _ Hd)).
Defined.

Lemma dispatch_label_line_witness :
  dispatchSample (sampleField "boolean" None None) (JBool true) false
  = Returned (Some (WithLabel (sampleField "boolean" None None) false "boolean"
                      (BooleanProps (Some "Question") false (JBool true) None)))
  /\ labelLine (WithLabel (sampleField "boolean" None None) false "boolean"
                  (BooleanProps (Some "Question") false (JBool true) None))
     = None.
Proof.
  assert (Hd : dispatchSample (sampleField "boolean" None None) (JBool true) false
               = Returned (Some (WithLabel (sampleField "boolean" None None) false
                                   "boolean"
                                   (BooleanProps (Some "Question") false
                                      (JBool true) None))))
    by (vm_compute; reflexivity).
  split; [exact Hd|].
  apply (proj1 (dispatch_label_line sampleNumberToString Components_spec
                  _ _ _ _ Hd)).
  left. reflexivity.
Defined.

Lemma isValueOfPropsType_exact_witness :
  recognizedPropsType "multiselect" = true
  /\ "multiselect" <> "objectiveWithInput"
  /\ isValueOfPropsType (number := SampleNumber) JUndefined (JArr [])
       "multiselect" = Returned true.
Proof.
  split; [reflexivity|]. split; [discriminate|].
  apply (proj2 (isValueOfPropsType_exact (number := SampleNumber) JUndefined
                  "multiselect" eq_refl ltac:(discriminate))).
  right. reflexivity.
Defined.

Lemma dispatch_failure_order_witness :
  Components_spec !! "select" = Some {| propsType := "select"; factory := "select" |}
  /\ dispatchSample (sampleField "select" None None) (JNum (SInt 3)) false
     = Threw (Error "Value 3 is not valid for type select for field question")
  /\ dispatchSample (sampleField "upload" None None) JUndefined false
     = Threw (TypeError "Cannot read properties of undefined (reading 'propsType')").
Proof.
  assert (Hc : Components_spec !! FormBuilder.type (sampleField "select" None None)
               = Some {| propsType := "select"; factory := "select" |})
    by (vm_compute; reflexivity).
  split; [exact Hc|]. split.
  - destruct (dispatch_failure_order sampleNumberToString Components_spec
                (sampleField "select" None None) (JNum (SInt 3)) false)
      as [_ Horder].
    apply (proj1 (Horder _ Hc (or_introl eq_refl) eq_refl)). reflexivity.
  - apply (proj1 (dispatch_failure_order sampleNumberToString Components_spec
                    (sampleField "upload" None None) JUndefined false)).
    vm_compute. reflexivity.
Defined.

Lemma dispatch_null_iff_witness :
  dispatchSample (sampleField "objectiveWithInput" (Some []) (Some []))
    JUndefined false = Returned None.
Proof.
  apply (proj2 (dispatch_null_iff sampleNumberToString Components_spec
                  (sampleField "objectiveWithInput" (Some []) (Some []))
                  JUndefined false)).
  exists {| propsType := "objectiveWithInput"; factory := "objectiveWithInput" |}, [].
  split; [vm_compute; reflexivity|]. repeat split.
Defined.

Lemma rowControls_offered_witness :
  editable (sampleEntry "notes" "textarea" (Some system_but_optional))
  <> Some user_readonly
  /\ EditButton ∈ rowControls (sampleEntry "notes" "textarea"
                                 (Some system_but_optional)).
Proof.
  split; [discriminate|].
  apply (proj1 (proj2 (rowControls_offered
                         (sampleEntry "notes" "textarea"
                            (Some system_but_optional))))).
  discriminate.
Defined.

Lemma swap_permutes_witness :
  swap 0 2 (fields sampleState)
  = Some [ sampleEntry "company" "text" (Some FormBuilder.user);
           sampleEntry "notes" "textarea" (Some system_but_optional);
           sampleEntry "name" "name" (Some system) ]
  /\ swap 2 0 (fields sampleState)
     = Some [ sampleEntry "company" "text" (Some FormBuilder.user);
              sampleEntry "notes" "textarea" (Some system_but_optional);
              sampleEntry "name" "name" (Some system) ].
Proof.
  assert (Hs : swap 0 2 (fields sampleState)
               = Some [ sampleEntry "company" "text" (Some FormBuilder.user);
                        sampleEntry "notes" "textarea" (Some system_but_optional);
                        sampleEntry "name" "name" (Some system) ])
    by reflexivity.
  split; [exact Hs|].
  exact (proj2 (proj2 (swap_permutes _ _ _ _ Hs))).
Defined.

Lemma arrows_at_the_ends_witness :
  0 < length (fields sampleState)
  /\ click 0 (sampleEntry "name" "name" (Some system)) ArrowUp sampleState = None.
Proof.
  split; [simpl; lia|].
  apply (proj1 (arrows_at_the_ends sampleState
                  (sampleEntry "name" "name" (Some system)) 0
                  ltac:(simpl; lia))).
  reflexivity.
Defined.


Lemma renderRow_required_and_type_witness :
  renderRow (sampleEntry "resume" "upload" None)
  = Threw (Error "Invalid field type - upload").
Proof.
  apply (proj2 (renderRow_required_and_type (sampleEntry "resume" "upload" None))).
  simpl. rewrite !not_elem_of_cons. repeat (split; [discriminate|]).
  apply not_elem_of_nil.
Defined.

Lemma toggleHidden_twice_witness :
  fields sampleState !! 2 = Some (sampleEntry "company" "text" (Some FormBuilder.user))
  /\ exists st1 field1 st2,
       toggleHidden 2 (sampleEntry "company" "text" (Some FormBuilder.user))
         sampleState = Some st1
       /\ fields st1 !! 2 = Some field1
       /\ toggleHidden 2 field1 st1 = Some st2
       /\ fields st2 !! 2
          = Some (setHidden (sampleEntry "company" "text" (Some FormBuilder.user))
                    false).
Proof.
  split; [reflexivity|].
  destruct (toggleHidden_twice sampleState 2
              (sampleEntry "company" "text" (Some FormBuilder.user)) eq_refl)
    as (st1 & field1 & st2 & H1 & H2 & H3 & H4 & _).
  exists st1, field1, st2.
  split; [exact H1|]. split; [exact H2|]. split; [exact H3|].
  rewrite H4. reflexivity.
Defined.

Lemma dialog_submit_target_witness :
  1 < length (fields sampleState)
  /\ exists st',
       handleSubmit (sampleEntry "remarks" "text" None)
         (editField 1 (sampleEntry "notes" "textarea" (Some system_but_optional))
            sampleState) = Some st'
       /\ fields st' = <[1 := sampleEntry "remarks" "text" None]> (fields sampleState)
       /\ isOpen (fieldDialog st') = false.
Proof.
  split; [simpl; lia|].
  apply (proj1 (dialog_submit_target sampleState
                  (sampleEntry "remarks" "text" None)) 1%nat).
  simpl. lia.
Defined.

Lemma created_entry_controls_witness :
  fieldIndex (fieldDialog sampleState) = (-1)%Z
  /\ exists st' created,
       handleSubmit (sampleEntry "phone" "phone" None) sampleState = Some st'
       /\ last (fields st') = Some created
       /\ editable created = Some FormBuilder.user.
Proof.
  split; [reflexivity|].
  destruct (created_entry_controls sampleState (sampleEntry "phone" "phone" None)
              eq_refl) as (st' & created & Hs & Hlast & _ & Hnone).
  exists st', created. split; [exact Hs|]. split; [exact Hlast|].
  exact (proj1 (Hnone eq_refl)).
Defined.

Lemma onLabelChange_changes_one_witness :
  1 < length defaultOptions
  /\ onLabelChange sampleToLowerCase sampleTrim 1 "  Vegan Menu " defaultOptions !! 1
     = Some {| opt_label := "  Vegan Menu "; opt_value := "vegan menu" |}.
Proof.
  split; [simpl; lia|].
  exact (proj1 (proj2 (onLabelChange_changes_one sampleToLowerCase sampleTrim
                         defaultOptions 1 "  Vegan Menu " ltac:(simpl; lia)))).
Defined.

Lemma options_never_below_two_witness :
  optionsRun sampleToLowerCase sampleTrim false
    [ClickAdd; ClickRemove 0; ChangeLabel 1 "Tea"] None
  = Some (Some [ {| opt_label := "Option 2"; opt_value := "2" |};
                 {| opt_label := "Tea"; opt_value := "tea" |} ])
  /\ 2 <= length (optionsOrDefault
                    (Some [ {| opt_label := "Option 2"; opt_value := "2" |};
                            {| opt_label := "Tea"; opt_value := "tea" |} ])).
Proof.
  assert (Hr : optionsRun sampleToLowerCase sampleTrim false
                 [ClickAdd; ClickRemove 0; ChangeLabel 1 "Tea"] None
               = Some (Some [ {| opt_label := "Option 2"; opt_value := "2" |};
                              {| opt_label := "Tea"; opt_value := "tea" |} ]))
    by (vm_compute; reflexivity).
  split; [exact Hr|].
  exact (proj1 (proj2 (options_never_below_two sampleToLowerCase sampleTrim
                         _ _ _ _ Hr)) eq_refl).
Defined.

Lemma braced_message_is_routed_witness :
  "email" <> ""
  /\ allChars notClosingBrace "email" = true
  /\ singleLine "invalid_email" = true
  /\ renderErrorMessage (sampleEntry "email" "email" (Some system))
       (Some "{email}invalid_email")
     = (Some "invalid_email", [])
  /\ renderErrorMessage (sampleEntry "name" "name" (Some system))
       (Some "{email}invalid_email")
     = (None, []).
Proof.
  split; [discriminate|]. split; [reflexivity|]. split; [reflexivity|].
  split.
  - destruct (braced_message_is_routed
                (sampleEntry "email" "email" (Some system)) "email" "invalid_email"
                ltac:(discriminate) eq_refl eq_refl) as (_ & _ & Hsame & _).
    exact (Hsame eq_refl).
  - destruct (braced_message_is_routed
                (sampleEntry "name" "name" (Some system)) "email" "invalid_email"
                ltac:(discriminate) eq_refl eq_refl) as (_ & _ & _ & Hother).
    apply Hother. discriminate.
Defined.

Lemma multiline_message_is_dropped_witness :
  "notes" <> ""
  /\ allChars notClosingBrace "notes" = true
  /\ singleLine twoLineText = false
  /\ renderErrorMessage (sampleEntry "notes" "textarea" None)
       (Some (String "{" ("notes" +:+ String "}" twoLineText)))
     = (None, []).
Proof.
  split; [discriminate|]. split; [reflexivity|]. split; [reflexivity|].
  destruct (multiline_message_is_dropped (sampleEntry "notes" "textarea" None)
              "notes" twoLineText ltac:(discriminate) eq_refl eq_refl)
    as (_ & _ & Hdropped).
  exact (Hdropped eq_refl).
Defined.

Lemma unbraced_message_witness :
  allChars notOpeningBrace "email_validation_error" = true
  /\ renderErrorMessage (sampleEntry "email" "email" (Some system))
       (Some "email_validation_error") = (None, []).
Proof.
  split; [reflexivity|].
  destruct (proj1 (unbraced_message (sampleEntry "email" "email" (Some system))
                     "email_validation_error") eq_refl) as (_ & Hother & _).
  apply Hother. discriminate.
Defined.

Lemma rate_limit_guard_witness :
  user (sampleContext "USER") = Some (sampleUser "USER")
  /\ session (sampleContext "USER") = Some "session"
  /\ callProcedure sampleHandler (JObj []) "viewer.apiKeys.create" "mutation"
       (authedRateLimitedProcedure sampleNumberToString (sampleLimiter true)
          sampleRateLimit)
       (sampleContext "USER")
     = (inl {| code := TOO_MANY_REQUESTS |},
        rejectedTrace "viewer.apiKeys.create" "mutation")
  /\ callProcedure sampleHandler (JObj []) "viewer.apiKeys.create" "mutation"
       (authedRateLimitedProcedure sampleNumberToString (sampleLimiter false)
          sampleRateLimit)
       (sampleContext "USER")
     = (inr "handled",
        [ PerformanceMark "Start";
          ResolverCalled (sampleContext "USER") (JObj []);
          PerformanceMark "End";
          PerformanceMeasure "[OK][$1] mutation 'viewer.apiKeys.create'"
            "Start" "End" ]).
Proof.
  split; [reflexivity|]. split; [reflexivity|]. split.
  - apply (proj1 (rate_limit_guard sampleNumberToString (sampleLimiter true)
                    sampleHandler (JObj []) "viewer.apiKeys.create" "mutation"
                    sampleRateLimit (sampleContext "USER") (sampleUser "USER")
                    "session" eq_refl eq_refl)).
    reflexivity.
  - apply (proj2 (rate_limit_guard sampleNumberToString (sampleLimiter false)
                    sampleHandler (JObj []) "viewer.apiKeys.create" "mutation"
                    sampleRateLimit (sampleContext "USER") (sampleUser "USER")
                    "session" eq_refl eq_refl)).
    reflexivity.
Defined.

Lemma team_guard_without_teamId_witness :
  user (sampleContext "USER") = Some (sampleUser "USER")
  /\ session (sampleContext "USER") = Some "session"
  /\ getProperty (number := SampleNumber) "teamId" [] = None
  /\ callProcedure sampleHandler (JObj []) "viewer.teams.list" "query"
       (userBelongsToTeamProcedure sampleToNumber sampleIsNaN membershipsOfOthers)
       (sampleContext "USER")
     = (inr "handled",
        [ PerformanceMark "Start"; MembershipFindFirst (SInt 7) None;
          ResolverCalled (sampleContext "USER") (JObj []);
          PerformanceMark "End";
          PerformanceMeasure "[OK][$1] query 'viewer.teams.list'" "Start" "End" ]).
Proof.
  split; [reflexivity|]. split; [reflexivity|]. split; [reflexivity|].
  apply (proj1 (team_guard_without_teamId sampleToNumber sampleIsNaN
                  membershipsOfOthers sampleHandler (JObj [])
                  "viewer.teams.list" "query" (sampleContext "USER")
                  (sampleUser "USER") "session" [] eq_refl eq_refl eq_refl
                  (or_introl eq_refl))
           {| userId := SInt 7; teamId := SInt 6 |}).
  - apply list_elem_of_further, list_elem_of_here.
  - reflexivity.
Defined.

Lemma team_guard_input_must_be_object_witness :
  user (sampleContext "USER") = Some (sampleUser "USER")
  /\ session (sampleContext "USER") = Some "session"
  /\ callProcedure sampleHandler JUndefined "viewer.teams.get" "query"
       (userBelongsToTeamProcedure sampleToNumber sampleIsNaN sampleMemberships)
       (sampleContext "USER")
     = (inl {| code := BAD_REQUEST |}, rejectedTrace "viewer.teams.get" "query").
Proof.
  split; [reflexivity|]. split; [reflexivity|].
  apply (proj2 (team_guard_input_must_be_object sampleToNumber sampleIsNaN
                  sampleMemberships sampleHandler JUndefined
                  "viewer.teams.get" "query" (sampleContext "USER")
                  (sampleUser "USER") "session" eq_refl eq_refl
                  ltac:(discriminate))).
Defined.

End CoverageEvaluation.
